(** * add-to-project: the filter pipeline, the project URL and the remote run

    A shallow embedding of [src/add-to-project.ts].

    - strings are [String.string]; the built-ins whose behaviour is fixed by
      Unicode tables ([toLowerCase], [toLocaleLowerCase], [trim]) are the
      methods of the class [StringOps], so every general statement holds for
      whatever they compute; an ASCII instance is given for evaluation;
    - [undefined] and [null] are [None]; the number [parseInt] returns is a
      [Number]: [NaN], a double holding a natural number, or [Infinity];
    - an exception or a rejected promise is an [Error]; reading the
      identifier [ownerName] of line 182, which the source binds nowhere,
      throws a [ReferenceError];
    - the remote API is a state machine answering the four GraphQL
      operations of the source; a run produces the trace of what it logged,
      called and emitted, and an outcome;
    - the [while] loop of the removal path is bounded by fuel, and running out
      of it is an outcome of its own ([OutOfFuel]);
    - [core.debug] diagnostics are left out of the trace. *)

From Stdlib Require Import String Ascii List Bool NArith Arith Lia.
From Stdlib Require Import DecimalString DecimalPos DecimalN.
Import ListNotations.

Open Scope string_scope.
Open Scope list_scope.

(* ================================================================== *)
(** * JavaScript built-ins used by the source *)
(* ================================================================== *)

Module Js.

(** [Array.prototype.includes] on an array of strings. *)
Definition includes (xs : list string) (x : string) : bool :=
  existsb (String.eqb x) xs.

(** [Array.prototype.every] and [Array.prototype.some] with a callback
    that cannot throw. *)
Definition every {A : Type} (f : A -> bool) (xs : list A) : bool := forallb f xs.
Definition some {A : Type} (f : A -> bool) (xs : list A) : bool := existsb f xs.

(** [s.startsWith(m)]. *)
Fixpoint startsWith (s m : string) {struct m} : bool :=
  match m, s with
  | EmptyString, _ => true
  | String _ _, EmptyString => false
  | String a m', String b s' => Ascii.eqb a b && startsWith s' m'
  end.

(** [s.split(c)] for a one-character separator: never the empty array. *)
Fixpoint split (sep : ascii) (s : string) : list string :=
  match s with
  | EmptyString => [EmptyString]
  | String c s' =>
      if Ascii.eqb c sep then EmptyString :: split sep s'
      else match split sep s' with
           | [] => [String c EmptyString]
           | piece :: pieces => String c piece :: pieces
           end
  end.

(** [l.length > 0] on a string. *)
Definition nonEmpty (s : string) : bool :=
  match s with EmptyString => false | String _ _ => true end.

End Js.

(** The string methods that depend on Unicode tables or on the locale. *)
Class StringOps : Type := {
  toLowerCase : string -> string;
  toLocaleLowerCase : string -> string;
  trim : string -> string
}.

(** An instance for strings of ASCII characters. *)
Module AsciiOps.

Definition lowerChar (c : ascii) : ascii :=
  let n := nat_of_ascii c in
  if (Nat.leb 65 n && Nat.leb n 90)%bool then ascii_of_nat (n + 32) else c.

Fixpoint lower (s : string) : string :=
  match s with
  | EmptyString => EmptyString
  | String c s' => String (lowerChar c) (lower s')
  end.

(** White space and line terminators below U+0100. *)
Definition isSpace (c : ascii) : bool :=
  let n := nat_of_ascii c in
  (Nat.leb 9 n && Nat.leb n 13) || Nat.eqb n 32 || Nat.eqb n 160.

Fixpoint trimStart (s : string) : string :=
  match s with
  | EmptyString => EmptyString
  | String c s' => if isSpace c then trimStart s' else s
  end.

Fixpoint trimEnd (s : string) : string :=
  match s with
  | EmptyString => EmptyString
  | String c s' =>
      match trimEnd s' with
      | EmptyString => if isSpace c then EmptyString else String c EmptyString
      | rest => String c rest
      end
  end.

Definition ops : StringOps := {|
  toLowerCase := lower;
  toLocaleLowerCase := lower;
  trim := fun s => trimEnd (trimStart s)
|}.

End AsciiOps.

(* ================================================================== *)
(** * Errors, the event payload and the action inputs *)
(* ================================================================== *)

Inductive Error : Type :=
| InputRequired (name : string)
    (** [core.getInput]: "Input required and not supplied" *)
| TypeError
    (** a property read on [undefined] *)
| InvalidProjectURL (projectUrl : string)
    (** line 114 *)
| UnsupportedOwnerType (ownerType : option string)
    (** line 245 *)
| RequestError (message : string)
    (** a rejected [octokit.graphql] promise *)
| AuthRequired
    (** [github.getOctokit] on an empty token (line 59):
        "Parameter token or opts.auth is required" *)
| ReferenceError (name : string)
    (** an identifier that no scope binds *).

Inductive Throws (A : Type) : Type :=
| Ok (a : A)
| Throw (e : Error).
Arguments Ok {A} a.
Arguments Throw {A} e.

(** [github.context.payload], as far as the source reads it. *)
Module Payload.
Record Label : Type := { name : string }.
Record Milestone : Type := { title : string }.
Record Issue : Type := {
  number : N;
  labels : option (list Label);
  milestone : option Milestone;
  node_id : string
}.
Record t : Type := {
  issue : option Issue;
  pull_request : option Issue
}.
End Payload.

(** The environment variables [core.getInput] reads; an unset one is [""]. *)
Record Inputs : Type := {
  INPUT_PROJECT_URL : string;
  INPUT_GITHUB_TOKEN : string;
  INPUT_LABELED : string;
  INPUT_LABEL_OPERATOR : string;
  INPUT_MILESTONED : string;
  INPUT_REMOVE_UNMATCHED : string;
  INPUT_FUZZY_MATCH : string
}.

(** The locals of [addToProject] that the filters read (lines 42-56). *)
Record FilterConfig : Type := {
  labeled : list string;
  labelOperator : string;
  milestoned : list string;
  removeUnmatched : string;
  fuzzyMatch : string
}.

(** The locals derived from the payload (lines 61-63). *)
Record EventContext : Type := {
  issueNumber : option N;
  issueLabels : list string;
  issueMilestone : option string
}.

Inductive Decision : Type := SKIP | ADD | REMOVE.

(* ================================================================== *)
(** * The remote API and the trace of a run *)
(* ================================================================== *)

(** The value of [ownerTypeQuery]: the root field of the lookup query. *)
Inductive OwnerTypeQuery : Type := Organization | User.

(** A number as [parseInt] returns it on a string without a sign: [NaN], a
    double whose value is the natural number [n], or [Infinity]. *)
Inductive Number : Type :=
| NaN
| Finite (n : N)
| Infinity.

Definition queryRoot (q : OwnerTypeQuery) : string :=
  match q with Organization => "organization" | User => "user" end.

(** [interface ProjectNodeIDResponse] (lines 9-21): each root field is
    optional and, when it is there, holds the [id] of its [projectV2]. *)
Module ProjectNodeIDResponse.
Record t : Type := {
  organization : option string;
  user : option string
}.
(** [idResp[ownerTypeQuery]?.projectV2.id] *)
Definition projectId (idResp : t) (q : OwnerTypeQuery) : option string :=
  match q with Organization => organization idResp | User => user idResp end.
End ProjectNodeIDResponse.

(** Modelled from the spec: the types [ProjectNextItemResponse] and
    [ProjectNextItem] are used at lines 156 and 188 and declared nowhere in
    the source. The shape is the selection set of the [projectIssues] query
    (lines 158-179): each item has its id and the id of its linked content;
    [organization] is [organization.projectNext.items] when the root field is
    there. *)
Module ProjectNextItemResponse.
Record ProjectNextItem : Type := {
  id : string;
  content_id : string
}.
Record Items : Type := {
  startCursor : option string;
  endCursor : option string;
  hasNextPage : bool;
  totalCount : N;
  nodes : list ProjectNextItem
}.
Record t : Type := { organization : option Items }.
End ProjectNextItemResponse.
Import ProjectNextItemResponse(ProjectNextItem).

(** What the two mutations select: [deleteProjectNextItem { deletedItemId }]
    (lines 200-204) and [addProjectNextItem { projectNextItem { id } }]
    (lines 217-222). *)
Record RemoveResponse : Type := { deleteProjectNextItem_deletedItemId : string }.
Record AddResponse : Type := { addProjectNextItem_projectNextItem_id : string }.

(** What [octokit.graphql] settles to: the response data, or a rejection
    with its message. *)
Inductive Reply (R : Type) : Type :=
| Resolved (r : R)
| Rejected (message : string).
Arguments Resolved {R} r.
Arguments Rejected {R} message.

(** The four operations sent through [octokit.graphql], with their
    variables. The remote has a state of its own, which a call may change. *)
Record Remote (St : Type) : Type := {
  getProject :
    OwnerTypeQuery -> option string -> Number -> St -> Reply ProjectNodeIDResponse.t * St;
  projectIssues :
    string -> Number -> option string -> St -> Reply ProjectNextItemResponse.t * St;
  removeIssueFromProject :
    string -> option string -> St -> Reply RemoveResponse * St;
  addIssueToProject :
    option string -> option string -> St -> Reply AddResponse * St
}.
Arguments getProject {St} _ _ _ _ _.
Arguments projectIssues {St} _ _ _ _ _.
Arguments removeIssueFromProject {St} _ _ _ _.
Arguments addIssueToProject {St} _ _ _ _.

(** The texts given to [core.info] and [core.warning], by source line. *)
Inductive Message : Type :=
| SkipNotAllLabels (number : option N) (labels : list string)
| SkipHasLabel (number : option N) (labels : list string)
| SkipNoLabel (number : option N) (labels : list string)
| UsingFuzzyMatching
| RemovingNotMilestoned (number : option N) (issueMilestone : option string)
    (milestones : list string)
| SkippingNotMilestoned (number : option N) (issueMilestone : option string)
    (milestones : list string)
| CouldNotFindItem (node_id : string).

(** The second argument of [core.setOutput]. *)
Inductive OutputValue : Type :=
| OutString (s : string)
| OutRemoveResponse (r : RemoveResponse).

Inductive Event : Type :=
| Info (m : Message)
| Warning (m : Message)
| GetProject (root : OwnerTypeQuery) (login : option string) (number : Number)
    (reply : Reply ProjectNodeIDResponse.t)
| ProjectIssues (org : string) (number : Number) (after : option string)
    (reply : Reply ProjectNextItemResponse.t)
| RemoveIssueFromProject (itemId : string) (projectId : option string)
    (reply : Reply RemoveResponse)
| AddIssueToProject (contentId projectId : option string)
    (reply : Reply AddResponse)
| SetOutput (name : string) (value : OutputValue).

Definition Trace : Type := list Event.

(** How a piece of [addToProject] ends. *)
Inductive Outcome (A : Type) : Type :=
| Value (a : A)      (** ran to its end *)
| Returned           (** a [return] statement: the run ends successfully *)
| Thrown (e : Error) (** the run fails *)
| OutOfFuel          (** the loop was cut by the fuel bound *).
Arguments Value {A} a.
Arguments Returned {A}.
Arguments Thrown {A} e.
Arguments OutOfFuel {A}.

(** A computation over the remote state: trace, final state, outcome. *)
Definition M (St A : Type) : Type := St -> Trace * St * Outcome A.

Definition ret {St A : Type} (a : A) : M St A := fun s => ([], s, Value a).

Definition bind {St A B : Type} (m : M St A) (f : A -> M St B) : M St B :=
  fun s =>
    match m s with
    | (t, s', Value a) => let '(t', s'', o) := f a s' in (t ++ t', s'', o)
    | (t, s', Returned) => (t, s', Returned)
    | (t, s', Thrown e) => (t, s', Thrown e)
    | (t, s', OutOfFuel) => (t, s', OutOfFuel)
    end.

Declare Scope run_scope.
Delimit Scope run_scope with run.
Notation "x <- m ;; k" := (bind m (fun x => k))
  (at level 61, m at next level, right associativity) : run_scope.
Notation "m ;; k" := (bind m (fun _ => k))
  (at level 61, right associativity) : run_scope.
Open Scope run_scope.

Definition exit {St A : Type} : M St A := fun s => ([], s, Returned).
Definition throw {St A : Type} (e : Error) : M St A := fun s => ([], s, Thrown e).
Definition outOfFuel {St A : Type} : M St A := fun s => ([], s, OutOfFuel).
Definition emit {St : Type} (e : Event) : M St unit := fun s => ([e], s, Value tt).
Definition info {St : Type} (m : Message) : M St unit := emit (Info m).
Definition warning {St : Type} (m : Message) : M St unit := emit (Warning m).
Definition setOutput {St : Type} (name : string) (v : OutputValue) : M St unit :=
  emit (SetOutput name v).

Definition lift {St A : Type} (r : Throws A) : M St A :=
  match r with Ok a => ret a | Throw e => throw e end.

(** [await octokit.graphql(...)]: the call and its reply are recorded; a
    rejected promise is rethrown. *)
Definition await {St R : Type} (op : St -> Reply R * St) (ev : Reply R -> Event) : M St R :=
  fun s =>
    let '(reply, s') := op s in
    ([ev reply], s',
     match reply with
     | Resolved r => Value r
     | Rejected message => Thrown (RequestError message)
     end).

Definition trace {St A : Type} (r : Trace * St * Outcome A) : Trace := fst (fst r).
Definition outcome {St A : Type} (r : Trace * St * Outcome A) : Outcome A := snd r.

(* ================================================================== *)
(** * Inputs and filters (lines 40-107) *)
(* ================================================================== *)

Section Filters.

Context {ops : StringOps}.

(** [core.getInput(name)]: the variable's value, trimmed. *)
Definition getInput (raw : string) : string := trim raw.

(** [core.getInput(name, {required: true})] *)
Definition getRequiredInput {St : Type} (name raw : string) : M St string :=
  if Js.nonEmpty raw then ret (trim raw) else throw (InputRequired name).

(** Lines 42-47: [.split(',').map(l => l.trim().toLowerCase()).filter(l => l.length > 0)] *)
Definition parseLabeled (input : string) : list string :=
  filter Js.nonEmpty (map (fun l => toLowerCase (trim l)) (Js.split "," input)).

(** Lines 49-54: [.split(',').map(l => l.trim()).filter(l => l.length > 0)] *)
Definition parseMilestoned (input : string) : list string :=
  filter Js.nonEmpty (map (fun l => trim l) (Js.split "," input)).

Definition readFilterConfig (env : Inputs) : FilterConfig := {|
  labeled := parseLabeled (getInput (INPUT_LABELED env));
  labelOperator := toLocaleLowerCase (trim (getInput (INPUT_LABEL_OPERATOR env)));
  milestoned := parseMilestoned (getInput (INPUT_MILESTONED env));
  removeUnmatched := getInput (INPUT_REMOVE_UNMATCHED env);
  fuzzyMatch := getInput (INPUT_FUZZY_MATCH env)
|}.

(** Line 61: [payload.issue ?? payload.pull_request] *)
Definition payloadIssue (payload : Payload.t) : option Payload.Issue :=
  match Payload.issue payload with
  | Some i => Some i
  | None => Payload.pull_request payload
  end.

(** Line 62: [issue?.labels ?? []] *)
Definition payloadLabels (issue : option Payload.Issue) : list Payload.Label :=
  match issue with
  | Some i => match Payload.labels i with Some ls => ls | None => [] end
  | None => []
  end.

(** Lines 62-63. *)
Definition readEventContext (issue : option Payload.Issue) : EventContext := {|
  issueNumber := option_map Payload.number issue;
  issueLabels := map (fun l => toLowerCase (Payload.name l)) (payloadLabels issue);
  issueMilestone :=
    match issue with
    | Some i => option_map Payload.title (Payload.milestone i)
    | None => None
    end
|}.

(** A filter entry is the name of a label of the issue, cases folded. *)
Definition hasLabel (issue : option Payload.Issue) (f : string) : Prop :=
  exists l, In l (payloadLabels issue) /\ toLowerCase (Payload.name l) = f.

End Filters.

(** Lines 70-86: the [labeled] filter under the label operator. *)
Definition labelStage {St : Type} (cfg : FilterConfig) (ctx : EventContext) : M St unit :=
  if labelOperator cfg =? "and" then
    if negb (Js.every (fun l => Js.includes (issueLabels ctx) l) (labeled cfg)) then
      info (SkipNotAllLabels (issueNumber ctx) (labeled cfg)) ;; exit
    else ret tt
  else if labelOperator cfg =? "not" then
    if Nat.ltb 0 (List.length (labeled cfg))
       && Js.some (fun l => Js.includes (labeled cfg) l) (issueLabels ctx) then
      info (SkipHasLabel (issueNumber ctx) (labeled cfg)) ;; exit
    else ret tt
  else
    if Nat.ltb 0 (List.length (labeled cfg))
       && negb (Js.some (fun l => Js.includes (labeled cfg) l) (issueLabels ctx)) then
      info (SkipNoLabel (issueNumber ctx) (labeled cfg)) ;; exit
    else ret tt.

(** [milestoned.some(m => milestone.startsWith(m))]: the callback reads a
    property of [milestone], which throws when [milestone] is [undefined]. *)
Fixpoint someStartsWith (milestone : option string) (ms : list string) : Throws bool :=
  match ms with
  | [] => Ok false
  | m :: ms' =>
      match milestone with
      | None => Throw TypeError
      | Some t => if Js.startsWith t m then Ok true else someStartsWith milestone ms'
      end
  end.

(** Lines 93-96; [shouldFuzzyMatch] and [milestoned] are captured variables.
    No element of [milestoned] is [undefined]. *)
Definition milestoneEnabled (shouldFuzzyMatch : bool) (milestoned : list string)
    (milestone : option string) : Throws bool :=
  if negb shouldFuzzyMatch then
    Ok (match milestone with
        | Some t => Js.includes milestoned t
        | None => false
        end)
  else someStartsWith milestone milestoned.

(** [x === 'true' || x === 'True'] (lines 88 and 100). *)
Definition isTrue (x : string) : bool := (x =? "true") || (x =? "True").

(** Lines 70-107. The value is [shouldRemove]. *)
Definition filterStage {St : Type} (cfg : FilterConfig) (ctx : EventContext) : M St bool :=
  labelStage cfg ctx ;;
  let shouldFuzzyMatch := isTrue (fuzzyMatch cfg) in
  (if shouldFuzzyMatch then info UsingFuzzyMatching else ret tt) ;;
  if Nat.ltb 0 (List.length (milestoned cfg)) then
    enabled <- lift (milestoneEnabled shouldFuzzyMatch (milestoned cfg) (issueMilestone ctx)) ;;
    if negb enabled then
      if isTrue (removeUnmatched cfg) then
        info (RemovingNotMilestoned (issueNumber ctx) (issueMilestone ctx) (milestoned cfg)) ;;
        ret true
      else
        info (SkippingNotMilestoned (issueNumber ctx) (issueMilestone ctx) (milestoned cfg)) ;;
        exit
    else ret false
  else ret false.

(** The decision the filters reach: a [return] is SKIP, [shouldRemove] is
    REMOVE, and falling through without it is ADD. *)
Definition decide (cfg : FilterConfig) (ctx : EventContext) : Outcome Decision :=
  match outcome (filterStage cfg ctx tt) with
  | Value true => Value REMOVE
  | Value false => Value ADD
  | Returned => Value SKIP
  | Thrown e => Thrown e
  | OutOfFuel => OutOfFuel
  end.

(** Whether the label filter lets the issue through. *)
Definition labelsPass (cfg : FilterConfig) (ctx : EventContext) : bool :=
  match outcome (labelStage cfg ctx tt) with
  | Value _ => true
  | _ => false
  end.

(* ================================================================== *)
(** * The project URL (lines 6-7, 111-122 and 241-249) *)
(* ================================================================== *)

(** The fragment of regular expressions [urlParse] is written in, with the
    backtracking semantics of the language: alternatives left to right,
    [?] and [+] greedy. *)
Module Regex.

Inductive charset : Type :=
| Char (c : ascii)     (** a character, escaped or not *)
| Digit                (** [\d] *)
| Except (c : ascii)   (** [[^c]] *).

Definition isDigit (c : ascii) : bool :=
  let n := nat_of_ascii c in Nat.leb 48 n && Nat.leb n 57.

Definition accepts (cs : charset) (c : ascii) : bool :=
  match cs with
  | Char a => Ascii.eqb c a
  | Digit => isDigit c
  | Except a => negb (Ascii.eqb c a)
  end.

Inductive t : Type :=
| Empty
| One (cs : charset)
| Plus (cs : charset)            (** [cs+] *)
| Seq (r1 r2 : t)
| Alt (r1 r2 : t)                (** [r1|r2] *)
| Opt (r : t)                    (** [(?:r)?] *)
| Group (name : string) (r : t)  (** [(?<name>r)] *).

(** A literal run of characters. *)
Fixpoint lit (s : string) : t :=
  match s with
  | EmptyString => Empty
  | String c s' => Seq (One (Char c)) (lit s')
  end.

Definition Groups : Type := list (string * string).

Fixpoint lookup (g : Groups) (name : string) : option string :=
  match g with
  | [] => None
  | (n, v) :: g' => if n =? name then Some v else lookup g' name
  end.

(** Zero or more characters of [cs], the longest run first. *)
Fixpoint many {R : Type} (cs : charset) (s : string) (k : string -> option R) : option R :=
  match s with
  | String c s' =>
      if accepts cs c then
        match many cs s' k with
        | Some r => Some r
        | None => k s
        end
      else k s
  | EmptyString => k s
  end.

(** [run r s g k]: match [r] at the head of [s], then go on with [k] on
    what is left; the text a group consumed is added to [g]. *)
Fixpoint run (r : t) (s : string) (g : Groups)
    (k : string -> Groups -> option Groups) : option Groups :=
  match r with
  | Empty => k s g
  | One cs =>
      match s with
      | String c s' => if accepts cs c then k s' g else None
      | EmptyString => None
      end
  | Plus cs =>
      match s with
      | String c s' => if accepts cs c then many cs s' (fun s'' => k s'' g) else None
      | EmptyString => None
      end
  | Seq r1 r2 => run r1 s g (fun s' g' => run r2 s' g' k)
  | Alt r1 r2 =>
      match run r1 s g k with
      | Some m => Some m
      | None => run r2 s g k
      end
  | Opt r1 =>
      match run r1 s g k with
      | Some m => Some m
      | None => k s g
      end
  | Group name r1 =>
      run r1 s g
        (fun s' g' => k s' ((name, substring 0 (String.length s - String.length s') s) :: g'))
  end.

(** [s.match(/^r/)]: the match has to start at the first character. *)
Definition matchStart (r : t) (s : string) : option Groups :=
  run r s [] (fun _ g => Some g).

(** Every character of [p] is in [cs]; [s] starts with a character of [cs]. *)
Fixpoint all (cs : charset) (p : string) : bool :=
  match p with
  | EmptyString => true
  | String c p' => accepts cs c && all cs p'
  end.

Definition startsIn (cs : charset) (s : string) : bool :=
  match s with
  | EmptyString => false
  | String c _ => accepts cs c
  end.

End Regex.

(** Lines 6-7:
    [^(?:https:\/\/)?github\.com\/(?<ownerType>orgs|users)\/(?<ownerName>[^/]+)\/projects\/(?<projectNumber>\d+)] *)
Definition urlParse : Regex.t :=
  Regex.Seq (Regex.Opt (Regex.lit "https://"))
 (Regex.Seq (Regex.lit "github.com/")
 (Regex.Seq (Regex.Group "ownerType" (Regex.Alt (Regex.lit "orgs") (Regex.lit "users")))
 (Regex.Seq (Regex.lit "/")
 (Regex.Seq (Regex.Group "ownerName" (Regex.Plus (Regex.Except "/")))
 (Regex.Seq (Regex.lit "/projects/")
            (Regex.Group "projectNumber" (Regex.Plus Regex.Digit))))))).

(** The value of the leading decimal digits of a string. *)
Fixpoint parseDigits (acc : N) (s : string) : N :=
  match s with
  | String c s' =>
      if Regex.isDigit c then parseDigits (10 * acc + (N_of_ascii c - 48)) s' else acc
  | EmptyString => acc
  end.

(** The double nearest to a natural number, ties to even: a number of at
    most 53 bits is a double; a longer one keeps its 53 leading bits, rounded
    by the bits that follow; from 2^1024 on the result is [Infinity]. *)
Definition toDouble (n : N) : Number :=
  let bits := N.size n in
  if (bits <=? 53)%N then Finite n
  else
    let e := (bits - 53)%N in
    let q := N.shiftr n e in
    let r := (n - N.shiftl q e)%N in
    let half := N.shiftl 1 (e - 1) in
    let q' := if ((half <? r) || ((r =? half) && N.odd q))%N then (q + 1)%N else q in
    let v := N.shiftl q' e in
    if (v <? 2 ^ 1024)%N then Finite v else Infinity.

(** [parseInt(s, 10)] on a string that starts with decimal digits or is
    empty: [NaN] without a leading digit, else the double nearest to the value
    of the leading digits. (The standard lets an implementation zero the
    digits after the twentieth; the engine the action runs on rounds the
    exact value.) *)
Definition parseInt (s : string) : Number :=
  match s with
  | String c _ => if Regex.isDigit c then toDouble (parseDigits 0 s) else NaN
  | EmptyString => NaN
  end.

(** The decimal numeral of a number. *)
Definition decimal (n : N) : string := NilEmpty.string_of_uint (N.to_uint n).

(** Lines 241-249. *)
Definition mustGetOwnerTypeQuery (ownerType : option string) : Throws OwnerTypeQuery :=
  match ownerType with
  | Some t =>
      if t =? "orgs" then Ok Organization
      else if t =? "users" then Ok User
      else Throw (UnsupportedOwnerType ownerType)
  | None => Throw (UnsupportedOwnerType ownerType)
  end.

(** What lines 111-122 compute from [projectUrl]. *)
Record ProjectRef : Type := {
  projectOwnerName : option string;
  projectNumber : Number;
  ownerTypeQuery : OwnerTypeQuery
}.

Definition resolveProject (projectUrl : string) : Throws ProjectRef :=
  match Regex.matchStart urlParse projectUrl with
  | None => Throw (InvalidProjectURL projectUrl)
  | Some groups =>
      let projectOwnerName := Regex.lookup groups "ownerName" in
      let projectNumber :=
        parseInt (match Regex.lookup groups "projectNumber" with
                  | Some d => d
                  | None => EmptyString
                  end) in
      let ownerType := Regex.lookup groups "ownerType" in
      match mustGetOwnerTypeQuery ownerType with
      | Throw e => Throw e
      | Ok ownerTypeQuery =>
          Ok {| projectOwnerName := projectOwnerName;
                projectNumber := projectNumber;
                ownerTypeQuery := ownerTypeQuery |}
      end
  end.

(** The strings [urlParse] matches, by their parts: an optional scheme, the
    host, the owner type, the owner name, the digits of the project number and
    whatever follows them. *)
Definition projectUrlOf (scheme ownerType ownerName digits rest : string) : string :=
  (scheme ++ "github.com/" ++ ownerType ++ "/" ++ ownerName ++ "/projects/"
          ++ digits ++ rest)%string.

(** The named groups of such a match, the last one first. *)
Definition urlGroups (ownerType ownerName digits : string) : Regex.Groups :=
  [("projectNumber", digits); ("ownerName", ownerName); ("ownerType", ownerType)].

Definition projectUrlParts (scheme ownerType ownerName digits rest : string) : Prop :=
  (scheme = EmptyString \/ scheme = "https://")
  /\ (ownerType = "orgs" \/ ownerType = "users")
  /\ ownerName <> EmptyString /\ Regex.all (Regex.Except "/") ownerName = true
  /\ digits <> EmptyString /\ Regex.all Regex.Digit digits = true
  /\ Regex.startsIn Regex.Digit rest = false.

(** [n.content.id === issue.node_id] (line 188). *)
Definition linkedTo (node_id : string) (n : ProjectNextItem) : bool :=
  ProjectNextItemResponse.content_id n =? node_id.

(* ================================================================== *)
(** * The run (lines 39-239) *)
(* ================================================================== *)

Section Run.

Context {ops : StringOps}.
Context {St : Type}.
Variable remote : Remote St.

(** Line 59: [github.getOctokit(ghToken)] refuses an empty token. *)
Definition getOctokit (ghToken : string) : M St unit :=
  if Js.nonEmpty ghToken then ret tt else throw AuthRequired.

(** Reading an identifier that no declaration, import or parameter of the
    module binds: a [ReferenceError]. *)
Definition unbound {A : Type} (name : string) : M St A :=
  throw (ReferenceError name).

(** Lines 150-191. [while (!item && hasNextPage)], one unit of fuel for
    each turn. The variables of the query are evaluated before the call, and
    the first of them, [ownerName] (line 182), is bound nowhere in the
    source. *)
Fixpoint findItem (fuel : nat) (projectNumber : Number) (node_id : string)
    (item : option ProjectNextItem) (hasNextPage : bool) (cursor : option string)
    : M St (option ProjectNextItem) :=
  if (match item with None => true | Some _ => false end) && hasNextPage then
    match fuel with
    | O => outOfFuel
    | S fuel' =>
        ownerName <- unbound "ownerName" ;;
        response <- await (projectIssues remote ownerName projectNumber cursor)
                          (ProjectIssues ownerName projectNumber cursor) ;;
        match ProjectNextItemResponse.organization response with
        | None => exit
        | Some items =>
            findItem fuel' projectNumber node_id
              (find (linkedTo node_id)
                    (ProjectNextItemResponse.nodes items))
              (ProjectNextItemResponse.hasNextPage items)
              (ProjectNextItemResponse.endCursor items)
        end
    end
  else ret item.

(** Lines 149-213, the branch taken when [shouldRemove && issue]. *)
Definition removeFromProject (fuel : nat) (projectNumber : Number)
    (projectId : option string) (issue : Payload.Issue) : M St unit :=
  item <- findItem fuel projectNumber (Payload.node_id issue) None true None ;;
  match item with
  | None =>
      warning (CouldNotFindItem (Payload.node_id issue)) ;;
      exit
  | Some item =>
      deletedItemId <-
        await (removeIssueFromProject remote (ProjectNextItemResponse.id item) projectId)
              (RemoveIssueFromProject (ProjectNextItemResponse.id item) projectId) ;;
      setOutput "deletedItemId" (OutRemoveResponse deletedItemId)
  end.

(** Lines 214-238. The call is read as
    [octokit.graphql(mutation, {input: {contentId, projectId}})]: the
    source repeats a fragment of it between lines 223 and 229. *)
Definition addIssue (projectId contentId : option string) : M St unit :=
  addResp <- await (addIssueToProject remote contentId projectId)
                   (AddIssueToProject contentId projectId) ;;
  setOutput "itemId" (OutString (addProjectNextItem_projectNextItem_id addResp)).

(** Lines 143-238: what follows the reply to the project lookup. *)
Definition afterLookup (fuel : nat) (shouldRemove : bool) (issue : option Payload.Issue)
    (project : ProjectRef) (idResp : ProjectNodeIDResponse.t) : M St unit :=
  let projectId := ProjectNodeIDResponse.projectId idResp (ownerTypeQuery project) in
  let contentId := option_map Payload.node_id issue in
  match shouldRemove, issue with
  | true, Some issue => removeFromProject fuel (projectNumber project) projectId issue
  | _, _ => addIssue projectId contentId
  end.

(** Lines 109-238: what follows the filters. *)
Definition afterFilters (fuel : nat) (shouldRemove : bool) (issue : option Payload.Issue)
    (projectUrl : string) : M St unit :=
  project <- lift (resolveProject projectUrl) ;;
  idResp <- await (getProject remote (ownerTypeQuery project) (projectOwnerName project)
                              (projectNumber project))
                  (GetProject (ownerTypeQuery project) (projectOwnerName project)
                              (projectNumber project)) ;;
  afterLookup fuel shouldRemove issue project idResp.

Definition addToProject (fuel : nat) (env : Inputs) (payload : Payload.t) : M St unit :=
  projectUrl <- getRequiredInput "project-url" (INPUT_PROJECT_URL env) ;;
  ghToken <- getRequiredInput "github-token" (INPUT_GITHUB_TOKEN env) ;;
  let cfg := readFilterConfig env in
  getOctokit ghToken ;;
  let issue := payloadIssue payload in
  let ctx := readEventContext issue in
  shouldRemove <- filterStage cfg ctx ;;
  afterFilters fuel shouldRemove issue projectUrl.

End Run.

(* ================================================================== *)
(** * Vocabulary for the statements about a run *)
(* ================================================================== *)

Definition isInfo (e : Event) : bool :=
  match e with Info _ => true | _ => false end.

Definition isWarning (e : Event) : bool :=
  match e with Warning _ => true | _ => false end.

Definition isOutput (e : Event) : bool :=
  match e with SetOutput _ _ => true | _ => false end.

Definition isMutation (e : Event) : bool :=
  match e with
  | RemoveIssueFromProject _ _ _ | AddIssueToProject _ _ _ => true
  | _ => false
  end.

Definition isPageQuery (e : Event) : bool :=
  match e with ProjectIssues _ _ _ _ => true | _ => false end.

(** The [projectId] a mutation was sent with. *)
Definition mutationProjectId (e : Event) : option (option string) :=
  match e with
  | RemoveIssueFromProject _ projectId _ | AddIssueToProject _ projectId _ => Some projectId
  | _ => None
  end.

Definition page (items : ProjectNextItemResponse.Items) : Reply ProjectNextItemResponse.t :=
  Resolved {| ProjectNextItemResponse.organization := Some items |}.

Definition noOrganization : Reply ProjectNextItemResponse.t :=
  Resolved {| ProjectNextItemResponse.organization := None |}.

(* ================================================================== *)
(** * Sample inputs *)
(* ================================================================== *)

Module Sample.

Definition issue12 : Payload.Issue := {|
  Payload.number := 12;
  Payload.labels := Some [ {| Payload.name := "Bug" |} ];
  Payload.milestone := None;
  Payload.node_id := "I_12"
|}.

Definition issue13 : Payload.Issue := {|
  Payload.number := 13;
  Payload.labels := Some [ {| Payload.name := "Bug" |}; {| Payload.name := "urgent" |} ];
  Payload.milestone := Some {| Payload.title := "V1.0" |};
  Payload.node_id := "I_13"
|}.

Definition payload (i : Payload.Issue) : Payload.t :=
  {| Payload.issue := Some i; Payload.pull_request := None |}.

(** [labeled], [label-operator], [milestoned], [remove-unmatched] and
    [fuzzy-match], for a project of the organization [acme]. *)
Definition env (labeled operator milestoned remove fuzzy : string) : Inputs := {|
  INPUT_PROJECT_URL := "https://github.com/orgs/acme/projects/7";
  INPUT_GITHUB_TOKEN := "token";
  INPUT_LABELED := labeled;
  INPUT_LABEL_OPERATOR := operator;
  INPUT_MILESTONED := milestoned;
  INPUT_REMOVE_UNMATCHED := remove;
  INPUT_FUZZY_MATCH := fuzzy
|}.

(** The same inputs for a project of the user [jane]. *)
Definition userEnv (labeled operator milestoned remove fuzzy : string) : Inputs := {|
  INPUT_PROJECT_URL := "https://github.com/users/jane/projects/3";
  INPUT_GITHUB_TOKEN := "token";
  INPUT_LABELED := labeled;
  INPUT_LABEL_OPERATOR := operator;
  INPUT_MILESTONED := milestoned;
  INPUT_REMOVE_UNMATCHED := remove;
  INPUT_FUZZY_MATCH := fuzzy
|}.

Definition config (labeled operator milestoned remove fuzzy : string) : FilterConfig :=
  readFilterConfig (ops := AsciiOps.ops) (env labeled operator milestoned remove fuzzy).

Definition context (i : Payload.Issue) : EventContext :=
  readEventContext (ops := AsciiOps.ops) (payloadIssue (payload i)).

Definition issue230 : Payload.Issue := {|
  Payload.number := 230;
  Payload.labels := None;
  Payload.milestone := Some {| Payload.title := "v1.0" |};
  Payload.node_id := "I_230"
|}.

(** Cursors, written in unary. *)
Fixpoint cursorAt (k : nat) : string :=
  match k with
  | O => EmptyString
  | S k' => String "x" (cursorAt k')
  end.

Definition position (cursor : option string) : nat :=
  match cursor with
  | None => 0
  | Some c => String.length c
  end.

Definition pageAt (items : list ProjectNextItem) (k : nat) : ProjectNextItemResponse.Items := {|
  ProjectNextItemResponse.startCursor := Some (cursorAt k);
  ProjectNextItemResponse.endCursor := Some (cursorAt (k + 100));
  ProjectNextItemResponse.hasNextPage := Nat.ltb (k + 100) (List.length items);
  ProjectNextItemResponse.totalCount := N.of_nat (List.length items);
  ProjectNextItemResponse.nodes := firstn 100 (skipn k items)
|}.

(** A remote that answers the lookup with [idResp] and serves [items] in
    pages of 100, or answers without the [organization] field when [items] is
    [None]; its state counts the calls. *)
Definition server (idResp : ProjectNodeIDResponse.t) (items : option (list ProjectNextItem))
    : Remote nat := {|
  getProject := fun _ _ _ calls => (Resolved idResp, S calls);
  projectIssues := fun _ _ after calls =>
    (match items with
     | Some l => page (pageAt l (position after))
     | None => noOrganization
     end, S calls);
  removeIssueFromProject := fun itemId _ calls =>
    (Resolved {| deleteProjectNextItem_deletedItemId := itemId |}, S calls);
  addIssueToProject := fun _ _ calls =>
    (Resolved {| addProjectNextItem_projectNextItem_id := "PNI_new" |}, S calls)
|}.

Definition items (n : nat) : list ProjectNextItem :=
  map (fun i => {| ProjectNextItemResponse.id := "PNI_" ++ decimal (N.of_nat i);
                   ProjectNextItemResponse.content_id := "I_" ++ decimal (N.of_nat i) |})
      (seq 0 n).

Definition inOrganization : ProjectNodeIDResponse.t :=
  {| ProjectNodeIDResponse.organization := Some "PVT_7"; ProjectNodeIDResponse.user := None |}.

Definition inUser : ProjectNodeIDResponse.t :=
  {| ProjectNodeIDResponse.organization := None; ProjectNodeIDResponse.user := Some "PVT_7" |}.

Definition notFound : ProjectNodeIDResponse.t :=
  {| ProjectNodeIDResponse.organization := None; ProjectNodeIDResponse.user := None |}.

End Sample.

(* ================================================================== *)
(** * Vocabulary for the statements about whole runs *)
(* ================================================================== *)

(** [shouldRemove], from the decision. *)
Definition isRemove (d : Decision) : bool :=
  match d with REMOVE => true | _ => false end.

Definition isLookup (e : Event) : bool :=
  match e with GetProject _ _ _ _ => true | _ => false end.

(** A call to the remote, of any of the four operations. *)
Definition isCall (e : Event) : bool :=
  match e with
  | GetProject _ _ _ _ | ProjectIssues _ _ _ _
  | RemoveIssueFromProject _ _ _ | AddIssueToProject _ _ _ => true
  | _ => false
  end.

(** The message of the rejection, when the event is a rejected call. *)
Definition rejection (e : Event) : option string :=
  match e with
  | GetProject _ _ _ (Rejected m) | ProjectIssues _ _ _ (Rejected m)
  | RemoveIssueFromProject _ _ (Rejected m) | AddIssueToProject _ _ (Rejected m) => Some m
  | _ => None
  end.

(** The lookup a run sends for a resolved project, with its reply. *)
Definition lookupOf (project : ProjectRef) (reply : Reply ProjectNodeIDResponse.t) : Event :=
  GetProject (ownerTypeQuery project) (projectOwnerName project) (projectNumber project) reply.

(** What follows a mutation: the output when it resolved, the failure when
    it was rejected. *)
Definition settled {R : Type} (reply : Reply R) (output : R -> Event) : Trace * Outcome unit :=
  match reply with
  | Resolved r => ([output r], Value tt)
  | Rejected message => ([], Thrown (RequestError message))
  end.

(** The runs of [addToProject] that got past the required inputs and the
    client, by the stage they end in: the bound on the loop, the log of the
    filters, the decision they reach, what the project URL resolves to and the
    issue of the payload give the traces and outcomes a run can have. *)
Inductive RunShape (fuel : nat) (log : Trace) (decision : Outcome Decision)
    (resolved : Throws ProjectRef) (issue : option Payload.Issue) :
    Trace -> Outcome unit -> Prop :=
| run_skipped :
    decision = Value SKIP ->
    RunShape fuel log decision resolved issue log Returned
| run_filter_threw e :
    decision = Thrown e ->
    RunShape fuel log decision resolved issue log (Thrown e)
| run_url_refused d e :
    decision = Value d -> d <> SKIP -> resolved = Throw e ->
    RunShape fuel log decision resolved issue log (Thrown e)
| run_lookup_rejected d project message :
    decision = Value d -> d <> SKIP -> resolved = Ok project ->
    RunShape fuel log decision resolved issue
      (log ++ [lookupOf project (Rejected message)])
      (Thrown (RequestError message))
| run_added d project idResp reply :
    decision = Value d -> d <> SKIP -> resolved = Ok project ->
    d = ADD \/ issue = None ->
    RunShape fuel log decision resolved issue
      (log ++ lookupOf project (Resolved idResp)
           :: AddIssueToProject (option_map Payload.node_id issue)
                (ProjectNodeIDResponse.projectId idResp (ownerTypeQuery project)) reply
           :: fst (settled reply (fun added =>
                     SetOutput "itemId"
                       (OutString (addProjectNextItem_projectNextItem_id added)))))
      (snd (settled reply (fun added =>
              SetOutput "itemId" (OutString (addProjectNextItem_projectNextItem_id added)))))
| run_removal_threw project idResp i :
    decision = Value REMOVE -> resolved = Ok project -> issue = Some i ->
    0 < fuel ->
    RunShape fuel log decision resolved issue
      (log ++ [lookupOf project (Resolved idResp)])
      (Thrown (ReferenceError "ownerName"))
| run_removal_cut project idResp i :
    decision = Value REMOVE -> resolved = Ok project -> issue = Some i ->
    fuel = 0 ->
    RunShape fuel log decision resolved issue
      (log ++ [lookupOf project (Resolved idResp)])
      OutOfFuel.

Module MoreSamples.

(** A payload with neither an issue nor a pull request. *)
Definition noIssue : Payload.t :=
  {| Payload.issue := None; Payload.pull_request := None |}.

(** An issue whose milestone title holds a comma. *)
Definition issue41 : Payload.Issue := {|
  Payload.number := 41;
  Payload.labels := Some [];
  Payload.milestone := Some {| Payload.title := "v1,0" |};
  Payload.node_id := "I_41"
|}.

(** A remote that rejects every call. *)
Definition refusing : Remote nat := {|
  getProject := fun _ _ _ calls => (Rejected "Bad credentials", S calls);
  projectIssues := fun _ _ _ calls => (Rejected "Bad credentials", S calls);
  removeIssueFromProject := fun _ _ calls => (Rejected "Bad credentials", S calls);
  addIssueToProject := fun _ _ calls => (Rejected "Bad credentials", S calls)
|}.

(** Inputs with a project URL of their own. *)
Definition envAt (projectUrl milestoned remove : string) : Inputs := {|
  INPUT_PROJECT_URL := projectUrl;
  INPUT_GITHUB_TOKEN := "token";
  INPUT_LABELED := EmptyString;
  INPUT_LABEL_OPERATOR := EmptyString;
  INPUT_MILESTONED := milestoned;
  INPUT_REMOVE_UNMATCHED := remove;
  INPUT_FUZZY_MATCH := EmptyString
|}.

End MoreSamples.

(** [s.includes(c)] for a character [c]. *)
Fixpoint hasChar (c : ascii) (s : string) : bool :=
  match s with
  | EmptyString => false
  | String c' s' => Ascii.eqb c' c || hasChar c s'
  end.

(* ================================================================== *)
(** * Facts about the built-ins *)
(* ================================================================== *)

Module JsFacts.

Lemma includes_In (xs : list string) (x : string) :
  Js.includes xs x = true <-> In x xs.
Proof.
  unfold Js.includes. rewrite existsb_exists. split.
  - intros [y [Hy He]]. apply String.eqb_eq in He. now subst.
  - intros H. exists x. split; [assumption | apply String.eqb_refl].
Qed.

Lemma includes_false (xs : list string) (x : string) :
  Js.includes xs x = false <-> ~ In x xs.
Proof.
  rewrite <- includes_In. destruct (Js.includes xs x); split; congruence.
Qed.

Lemma startsWith_app (s m : string) :
  Js.startsWith s m = true <-> exists rest, s = (m ++ rest)%string.
Proof.
  revert s. induction m as [|a m IH]; intros s; simpl.
  - split; [intros _; now exists s | reflexivity].
  - destruct s as [|b s].
    + split; [discriminate | intros [rest H]; discriminate].
    + rewrite andb_true_iff, IH. split.
      * intros [Hab [rest ->]]. apply Ascii.eqb_eq in Hab. subst. now exists rest.
      * intros [rest H]. injection H as -> ->. split; [apply Ascii.eqb_refl | now exists rest].
Qed.

Lemma nonEmpty_true (s : string) : Js.nonEmpty s = true <-> s <> EmptyString.
Proof. destruct s; simpl; split; congruence. Qed.

Lemma length_pos {A : Type} (xs : list A) : Nat.ltb 0 (List.length xs) = true <-> xs <> [].
Proof. destruct xs; unfold Nat.ltb; simpl; split; congruence. Qed.

Lemma every_includes (xs ys : list string) :
  Js.every (fun l => Js.includes ys l) xs = true <-> forall f, In f xs -> In f ys.
Proof.
  unfold Js.every. rewrite forallb_forall.
  split; intros H f Hf; apply includes_In; auto.
Qed.

Lemma some_includes (xs ys : list string) :
  Js.some (fun l => Js.includes xs l) ys = true <-> exists f, In f xs /\ In f ys.
Proof.
  unfold Js.some. rewrite existsb_exists. split.
  - intros [l [Hl Hi]]. apply includes_In in Hi. eauto.
  - intros [f [Hx Hy]]. exists f. split; [assumption | now apply includes_In].
Qed.

End JsFacts.

(* ================================================================== *)
(** * The filters *)
(* ================================================================== *)

Section FilterFacts.

Context {ops : StringOps}.

Lemma issueLabels_hasLabel (issue : option Payload.Issue) (f : string) :
  In f (issueLabels (readEventContext issue)) <-> hasLabel issue f.
Proof.
  unfold hasLabel. simpl. rewrite in_map_iff. split.
  - intros [l [He Hl]]. eauto.
  - intros [l [Hl He]]. eauto.
Qed.

Lemma parseLabeled_In (input f : string) :
  In f (parseLabeled input) <->
  exists piece, In piece (Js.split "," input)
                /\ f = toLowerCase (trim piece) /\ f <> EmptyString.
Proof.
  unfold parseLabeled. rewrite filter_In, in_map_iff, JsFacts.nonEmpty_true. split.
  - intros [[piece [He Hp]] Hne]. exists piece. auto.
  - intros [piece [Hp [He Hne]]]. split; [exists piece; auto | assumption].
Qed.

Lemma parseMilestoned_In (input f : string) :
  In f (parseMilestoned input) <->
  exists piece, In piece (Js.split "," input) /\ f = trim piece /\ f <> EmptyString.
Proof.
  unfold parseMilestoned. rewrite filter_In, in_map_iff, JsFacts.nonEmpty_true. split.
  - intros [[piece [He Hp]] Hne]. exists piece. auto.
  - intros [piece [Hp [He Hne]]]. split; [exists piece; auto | assumption].
Qed.

End FilterFacts.

Lemma labelsPass_and (cfg : FilterConfig) (ctx : EventContext) :
  labelOperator cfg = "and" ->
  labelsPass cfg ctx = Js.every (fun l => Js.includes (issueLabels ctx) l) (labeled cfg).
Proof.
  intros Hop. unfold labelsPass, labelStage. rewrite Hop. simpl.
  now destruct (Js.every _ _).
Qed.

Lemma labelsPass_not (cfg : FilterConfig) (ctx : EventContext) :
  labelOperator cfg = "not" ->
  labelsPass cfg ctx =
  negb (Nat.ltb 0 (List.length (labeled cfg))
        && Js.some (fun l => Js.includes (labeled cfg) l) (issueLabels ctx)).
Proof.
  intros Hop. unfold labelsPass, labelStage. rewrite Hop. simpl.
  now destruct (_ && _).
Qed.

Lemma labelsPass_or (cfg : FilterConfig) (ctx : EventContext) :
  labelOperator cfg <> "and" -> labelOperator cfg <> "not" ->
  labelsPass cfg ctx =
  negb (Nat.ltb 0 (List.length (labeled cfg))
        && negb (Js.some (fun l => Js.includes (labeled cfg) l) (issueLabels ctx))).
Proof.
  intros Hand Hnot. unfold labelsPass, labelStage.
  apply String.eqb_neq in Hand, Hnot. rewrite Hand, Hnot.
  now destruct (_ && _).
Qed.

Lemma labelStage_cases {St : Type} (cfg : FilterConfig) (ctx : EventContext) (s : St) :
  (labelsPass cfg ctx = true /\ labelStage cfg ctx s = ([], s, Value tt))
  \/ (labelsPass cfg ctx = false
      /\ exists m, labelStage cfg ctx s = ([Info m], s, Returned)).
Proof.
  unfold labelsPass, labelStage.
  destruct (labelOperator cfg =? "and");
    [| destruct (labelOperator cfg =? "not")];
    match goal with |- context [if ?b then _ else _] => destruct b end;
    cbn; eauto.
Qed.

(** The filters, as one expression of the label filter, the milestone filter
    and the two flags. *)
Lemma decide_rule (cfg : FilterConfig) (ctx : EventContext) :
  decide cfg ctx =
  if labelsPass cfg ctx then
    if Nat.ltb 0 (List.length (milestoned cfg)) then
      match milestoneEnabled (isTrue (fuzzyMatch cfg)) (milestoned cfg) (issueMilestone ctx) with
      | Ok true => Value ADD
      | Ok false => if isTrue (removeUnmatched cfg) then Value REMOVE else Value SKIP
      | Throw e => Thrown e
      end
    else Value ADD
  else Value SKIP.
Proof.
  unfold decide, filterStage, bind, outcome. cbv zeta.
  destruct (labelStage_cases cfg ctx tt) as [[Hp Hs] | [Hp [m Hs]]];
    rewrite Hp, Hs; [| reflexivity].
  generalize (milestoneEnabled (isTrue (fuzzyMatch cfg)) (milestoned cfg)
                (issueMilestone ctx)) as enabled.
  intros [[|]|e];
    destruct (isTrue (fuzzyMatch cfg));
    destruct (Nat.ltb 0 (List.length (milestoned cfg)));
    destruct (isTrue (removeUnmatched cfg)); reflexivity.
Qed.

Lemma someStartsWith_title (t : string) (ms : list string) :
  someStartsWith (Some t) ms = Ok (Js.some (fun m => Js.startsWith t m) ms).
Proof.
  induction ms as [|m ms IH]; simpl; [reflexivity |].
  destruct (Js.startsWith t m); [reflexivity | exact IH].
Qed.

Lemma someStartsWith_undefined (ms : list string) :
  someStartsWith None ms = match ms with [] => Ok false | _ :: _ => Throw TypeError end.
Proof. destruct ms; reflexivity. Qed.

Lemma milestoneEnabled_title (fuzzy : bool) (ms : list string) (t : string) :
  milestoneEnabled fuzzy ms (Some t) =
  Ok (if fuzzy then Js.some (fun m => Js.startsWith t m) ms else Js.includes ms t).
Proof.
  unfold milestoneEnabled. destruct fuzzy; simpl; [apply someStartsWith_title | reflexivity].
Qed.

Lemma some_startsWith (t : string) (ms : list string) :
  Js.some (fun m => Js.startsWith t m) ms = true <->
  exists f, In f ms /\ exists rest, t = (f ++ rest)%string.
Proof.
  unfold Js.some. rewrite existsb_exists.
  split; intros [f [Hf H]]; exists f; (split; [assumption |]);
    now apply JsFacts.startsWith_app.
Qed.

Section FilterClaims.

Context {ops : StringOps}.

(** C2. The label filter lets an issue through: under the operator [and],
    exactly when every entry of the filter is a label of the issue; under
    [not], exactly when the filter is empty or no entry of it is a label of
    the issue; under any other operator (the default, OR), exactly when the
    filter is empty or some entry of it is a label of the issue. A filter
    entry is compared with the lower-cased name of each label. *)
Theorem labels_match_by_operator (cfg : FilterConfig) (issue : option Payload.Issue) :
  let ctx := readEventContext issue in
  (labelOperator cfg = "and" ->
     (labelsPass cfg ctx = true <->
      forall f, In f (labeled cfg) -> hasLabel issue f))
  /\ (labelOperator cfg = "not" ->
     (labelsPass cfg ctx = true <->
      labeled cfg = [] \/ forall f, In f (labeled cfg) -> ~ hasLabel issue f))
  /\ (labelOperator cfg <> "and" -> labelOperator cfg <> "not" ->
     (labelsPass cfg ctx = true <->
      labeled cfg = [] \/ exists f, In f (labeled cfg) /\ hasLabel issue f)).
Proof.
  intros ctx. repeat split.
  - intros Hp f Hf. apply issueLabels_hasLabel.
    rewrite (labelsPass_and _ _ H) in Hp.
    now apply (proj1 (JsFacts.every_includes _ _) Hp).
  - intros Hall. rewrite (labelsPass_and _ _ H).
    apply JsFacts.every_includes. intros f Hf.
    now apply issueLabels_hasLabel, Hall.
  - rewrite (labelsPass_not _ _ H), negb_true_iff, andb_false_iff.
    intros [Hlen | Hsome].
    + left. destruct (labeled cfg); [reflexivity | discriminate].
    + right. intros f Hf Hhas.
      apply issueLabels_hasLabel in Hhas.
      assert (Js.some (fun l => Js.includes (labeled cfg) l) (issueLabels ctx) = true)
        by (apply JsFacts.some_includes; eauto).
      congruence.
  - rewrite (labelsPass_not _ _ H), negb_true_iff, andb_false_iff.
    intros [Hnil | Hnone].
    + left. now rewrite Hnil.
    + right. destruct (Js.some _ _) eqn:Hsome; [| reflexivity].
      apply JsFacts.some_includes in Hsome. destruct Hsome as [f [Hf Hl]].
      exfalso. apply (Hnone f Hf). now apply issueLabels_hasLabel.
  - rewrite (labelsPass_or _ _ H H0), negb_true_iff, andb_false_iff, negb_false_iff.
    intros [Hlen | Hsome].
    + left. destruct (labeled cfg); [reflexivity | discriminate].
    + right. apply JsFacts.some_includes in Hsome. destruct Hsome as [f [Hf Hl]].
      exists f. split; [assumption | now apply issueLabels_hasLabel].
  - rewrite (labelsPass_or _ _ H H0), negb_true_iff, andb_false_iff, negb_false_iff.
    intros [Hnil | [f [Hf Hhas]]].
    + left. now rewrite Hnil.
    + right. apply JsFacts.some_includes. exists f.
      split; [assumption | now apply issueLabels_hasLabel].
Qed.

End FilterClaims.

(** C3. On a title [t], the milestone match returns a boolean: in exact mode
    it is true exactly when [t] is an entry of the filter, in fuzzy mode
    exactly when [t] starts with an entry of the filter. With an empty filter
    the milestone plays no part: the decision is ADD when the labels pass and
    SKIP when they do not. *)
Theorem milestoneEnabled_on_title (F : list string) (t : string) :
  (exists b, milestoneEnabled false F (Some t) = Ok b /\ (b = true <-> In t F))
  /\ (exists b, milestoneEnabled true F (Some t) = Ok b
                /\ (b = true <-> exists f rest, In f F /\ t = (f ++ rest)%string))
  /\ (forall cfg ctx, milestoned cfg = [] ->
        decide cfg ctx = if labelsPass cfg ctx then Value ADD else Value SKIP).
Proof.
  repeat split.
  - eexists. split; [apply milestoneEnabled_title |]. apply JsFacts.includes_In.
  - eexists. split; [apply milestoneEnabled_title |]. rewrite some_startsWith.
    split; [intros [f [Hf [rest Ht]]] | intros [f [rest [Hf Ht]]]]; eauto.
  - intros cfg ctx Hnil. rewrite decide_rule, Hnil. reflexivity.
Qed.

(** C4. The decision is undefined on exactly one family of inputs: when the
    labels pass, fuzzy matching is on, the milestone filter is not empty and
    the issue has no milestone, a [TypeError] is thrown; on every other input
    the decision is one of SKIP, ADD and REMOVE. *)
Theorem decide_throws_iff (cfg : FilterConfig) (ctx : EventContext) :
  (labelsPass cfg ctx = true /\ isTrue (fuzzyMatch cfg) = true
   /\ milestoned cfg <> [] /\ issueMilestone ctx = None
   -> decide cfg ctx = Thrown TypeError)
  /\ (~ (labelsPass cfg ctx = true /\ isTrue (fuzzyMatch cfg) = true
         /\ milestoned cfg <> [] /\ issueMilestone ctx = None)
      -> exists d, decide cfg ctx = Value d).
Proof.
  rewrite decide_rule. split.
  - intros [Hp [Hf [Hne Hm]]]. rewrite Hp, Hf, Hm.
    destruct (milestoned cfg); [congruence | reflexivity].
  - intros Hnot. destruct (labelsPass cfg ctx); [| eauto].
    destruct (milestoned cfg) as [|m ms] eqn:Hms; [cbn; eauto |].
    destruct (issueMilestone ctx) as [t|] eqn:Ht.
    + rewrite milestoneEnabled_title. cbn [List.length Nat.ltb Nat.leb].
      match goal with |- context [if (if ?f then ?x else ?y) then _ else _] =>
        destruct (if f then x else y) end;
        [| destruct (isTrue (removeUnmatched cfg))]; eauto.
    + destruct (isTrue (fuzzyMatch cfg)) eqn:Hf.
      * exfalso. apply Hnot. repeat split; congruence.
      * cbn. destruct (isTrue (removeUnmatched cfg)); eauto.
Qed.


Lemma labels_match_by_operator_witness :
  (labelsPass (Sample.config "BUG, Urgent" "AND" "" "" "") (Sample.context Sample.issue13) = true
   <-> forall f, In f ["bug"; "urgent"] -> hasLabel (ops := AsciiOps.ops) (Some Sample.issue13) f)
  /\ (labelsPass (Sample.config "wontfix" "not" "" "" "") (Sample.context Sample.issue13) = true
      <-> ["wontfix"] = []
          \/ forall f, In f ["wontfix"] -> ~ hasLabel (ops := AsciiOps.ops) (Some Sample.issue13) f)
  /\ (labelsPass (Sample.config "bug" "" "" "" "") (Sample.context Sample.issue12) = true
      <-> ["bug"] = []
          \/ exists f, In f ["bug"] /\ hasLabel (ops := AsciiOps.ops) (Some Sample.issue12) f).
Proof.
  split; [| split].
  - apply (proj1 (labels_match_by_operator (ops := AsciiOps.ops)
                    (Sample.config "BUG, Urgent" "AND" "" "" "") (Some Sample.issue13))).
    reflexivity.
  - apply (proj1 (proj2 (labels_match_by_operator (ops := AsciiOps.ops)
                    (Sample.config "wontfix" "not" "" "" "") (Some Sample.issue13)))).
    reflexivity.
  - apply (proj2 (proj2 (labels_match_by_operator (ops := AsciiOps.ops)
                    (Sample.config "bug" "" "" "" "") (Some Sample.issue12)))).
    + discriminate.
    + discriminate.
Defined.

(** C10. Milestone matching is case-sensitive in both modes. The milestone
    filter holds the non-empty trimmed pieces of the input, unchanged
    otherwise; the title of the issue's milestone is compared as it is, by
    equality in exact mode and as an extension of a filter entry in fuzzy
    mode. The label filter holds the lower-cased trimmed pieces, and the
    label names of the issue are lower-cased before they are compared. So the
    title [V1.0] matches neither the filter [v1.0] nor, in fuzzy mode, the
    filter [v1], while the label [Bug] passes the filter [BUG]. *)
Theorem milestone_filter_case_sensitive :
  (forall (ops : StringOps) (input : string) (issue : Payload.Issue) (t : string),
    let F := parseMilestoned input in
    (forall f, In f F <->
       exists piece, In piece (Js.split "," input) /\ f = trim piece /\ f <> EmptyString)
    /\ issueMilestone (readEventContext (Some issue))
       = option_map Payload.title (Payload.milestone issue)
    /\ (milestoneEnabled false F (Some t) = Ok true <->
        exists piece, In piece (Js.split "," input) /\ t = trim piece /\ t <> EmptyString)
    /\ (milestoneEnabled true F (Some t) = Ok true <->
        exists piece rest, In piece (Js.split "," input)
                           /\ t = (trim piece ++ rest)%string /\ trim piece <> EmptyString)
    /\ (forall f, In f (parseLabeled input) <->
        exists piece, In piece (Js.split "," input)
                      /\ f = toLowerCase (trim piece) /\ f <> EmptyString)
    /\ issueLabels (readEventContext (Some issue))
       = map (fun l => toLowerCase (Payload.name l)) (payloadLabels (Some issue)))
  /\ decide (Sample.config "" "" "v1.0" "" "") (Sample.context Sample.issue13) = Value SKIP
  /\ decide (Sample.config "" "" "v1" "" "true") (Sample.context Sample.issue13) = Value SKIP
  /\ decide (Sample.config "" "" "V1" "" "true") (Sample.context Sample.issue13) = Value ADD
  /\ decide (Sample.config "BUG" "and" "" "" "") (Sample.context Sample.issue13) = Value ADD.
Proof.
  split; [| repeat split].
  intros ops input issue t F. repeat split.
  - now apply parseMilestoned_In.
  - now apply parseMilestoned_In.
  - rewrite milestoneEnabled_title. intros H. injection H as H.
    apply JsFacts.includes_In in H. now apply parseMilestoned_In.
  - intros H. rewrite milestoneEnabled_title. f_equal.
    apply JsFacts.includes_In. now apply parseMilestoned_In.
  - rewrite milestoneEnabled_title. intros H. injection H as H.
    apply some_startsWith in H. destruct H as [f [Hf [rest Ht]]].
    apply parseMilestoned_In in Hf. destruct Hf as [piece [Hp [He Hne]]].
    exists piece, rest. subst f. auto.
  - intros [piece [rest [Hp [Ht Hne]]]]. rewrite milestoneEnabled_title. f_equal.
    apply some_startsWith. exists (trim piece). split.
    + apply parseMilestoned_In. exists piece. auto.
    + now exists rest.
  - now apply parseLabeled_In.
  - now apply parseLabeled_In.
Qed.

Lemma milestone_filter_case_sensitive_witness :
  milestoneEnabled false (parseMilestoned (ops := AsciiOps.ops) "v1.0, V2") (Some "V2")
  = Ok true.
Proof.
  apply (proj1 (proj2 (proj2 (proj1 milestone_filter_case_sensitive
                                AsciiOps.ops "v1.0, V2" Sample.issue13 "V2")))).
  exists " V2". repeat split; [simpl; auto | discriminate].
Defined.

Lemma milestoneEnabled_on_title_witness :
  decide (Sample.config "bug" "" "" "true" "true") (Sample.context Sample.issue12) = Value ADD.
Proof.
  exact (proj2 (proj2 (milestoneEnabled_on_title [] EmptyString))
           (Sample.config "bug" "" "" "true" "true") (Sample.context Sample.issue12)
           eq_refl).
Defined.

Lemma decide_throws_iff_witness :
  decide (Sample.config "bug" "" "v2" "" "True") (Sample.context Sample.issue12)
  = Thrown TypeError
  /\ exists d,
       decide (Sample.config "bug" "" "v2" "" "True") (Sample.context Sample.issue13)
       = Value d.
Proof.
  split.
  - apply (proj1 (decide_throws_iff _ _)).
    repeat split; [discriminate].
  - apply (proj2 (decide_throws_iff _ _)).
    intros [_ [_ [_ H]]]. discriminate H.
Defined.

(** The scenarios of the specification. *)
Example scenarios :
  decide (Sample.config "bug" "" "" "" "") (Sample.context Sample.issue13) = Value ADD
  /\ decide (Sample.config "bug,urgent" "and" "" "" "") (Sample.context Sample.issue12)
     = Value SKIP
  /\ milestoneEnabled true ["v2"] (Some "v2.0") = Ok true
  /\ decide {| labeled := []; labelOperator := EmptyString; milestoned := ["v2"];
               removeUnmatched := "true"; fuzzyMatch := EmptyString |}
            {| issueNumber := Some 1%N; issueLabels := []; issueMilestone := Some "v1.0" |}
     = Value REMOVE.
Proof. repeat split. Qed.

(** C1. An issue without a milestone, the filter [milestoned: v2], the labels
    passing and [remove-unmatched: true]: with exact matching the decision is
    REMOVE; with [fuzzy-match: true] the milestone does not start with an
    entry of the filter either, and no decision is reached: the filters throw
    a [TypeError], and so does the whole run, whatever the remote answers,
    before any call. *)
Theorem decide_fuzzy_without_milestone :
  let cfg := Sample.config "bug" "" "v2" "true" "true" in
  let ctx := Sample.context Sample.issue12 in
  labelsPass cfg ctx = true
  /\ milestoned cfg = ["v2"]
  /\ issueMilestone ctx = None
  /\ isTrue (removeUnmatched cfg) = true
  /\ decide (Sample.config "bug" "" "v2" "true" "") ctx = Value REMOVE
  /\ decide cfg ctx = Thrown TypeError
  /\ forall (St : Type) (remote : Remote St) (fuel : nat) (s : St),
       addToProject (ops := AsciiOps.ops) remote fuel
         (Sample.env "bug" "" "v2" "true" "true") (Sample.payload Sample.issue12) s
       = ([Info UsingFuzzyMatching], s, Thrown TypeError).
Proof. repeat split. Qed.

(* ================================================================== *)
(** * The project URL *)
(* ================================================================== *)

Module RegexFacts.

Import Regex.

Lemma length_app (p s : string) :
  String.length (p ++ s) = String.length p + String.length s.
Proof. induction p as [|c p IH]; simpl; [reflexivity | now rewrite IH]. Qed.

Lemma substring_app (p s : string) : substring 0 (String.length p) (p ++ s) = p.
Proof.
  induction p as [|c p IH]; simpl.
  - now destruct s.
  - now rewrite IH.
Qed.

(** The text between the start of [p ++ s] and the start of [s]. *)
Lemma captured (p s : string) :
  substring 0 (String.length (p ++ s) - String.length s) (p ++ s) = p.
Proof.
  rewrite length_app, Nat.add_sub. apply substring_app.
Qed.

Lemma run_Seq r1 r2 s g k :
  run (Seq r1 r2) s g k = run r1 s g (fun s' g' => run r2 s' g' k).
Proof. reflexivity. Qed.

Lemma run_Group name r s g k :
  run (Group name r) s g k =
  run r s g (fun s' g' =>
    k s' ((name, substring 0 (String.length s - String.length s') s) :: g')).
Proof. reflexivity. Qed.

Lemma run_Alt r1 r2 s g k :
  run (Alt r1 r2) s g k =
  match run r1 s g k with Some m => Some m | None => run r2 s g k end.
Proof. reflexivity. Qed.

Lemma run_Opt r s g k :
  run (Opt r) s g k = match run r s g k with Some m => Some m | None => k s g end.
Proof. reflexivity. Qed.

Lemma run_lit_app l s g k : run (lit l) (l ++ s) g k = k s g.
Proof.
  induction l as [|c l IH]; simpl; [reflexivity |].
  rewrite Ascii.eqb_refl. apply IH.
Qed.

Lemma run_lit_inv l s g k m :
  run (lit l) s g k = Some m -> exists s', s = (l ++ s')%string /\ k s' g = Some m.
Proof.
  revert s. induction l as [|c l IH]; intros s H; simpl in H.
  - now exists s.
  - destruct s as [|b s]; [discriminate |].
    destruct (Ascii.eqb b c) eqn:Hbc; [| discriminate].
    apply Ascii.eqb_eq in Hbc. subst b.
    destruct (IH _ H) as [s' [-> Hk]]. now exists s'.
Qed.

Lemma run_lit_mismatch l s g k :
  Js.startsWith s l = false -> run (lit l) s g k = None.
Proof.
  revert s. induction l as [|c l IH]; intros s H; simpl in *; [discriminate |].
  destruct s as [|b s]; [reflexivity |].
  rewrite Ascii.eqb_sym. destruct (Ascii.eqb c b); [now apply IH | reflexivity].
Qed.

Lemma run_Opt_inv r s g k m :
  run (Opt r) s g k = Some m -> run r s g k = Some m \/ k s g = Some m.
Proof. simpl. destruct (run r s g k); auto. Qed.

Lemma run_Alt_inv r1 r2 s g k m :
  run (Alt r1 r2) s g k = Some m -> run r1 s g k = Some m \/ run r2 s g k = Some m.
Proof. simpl. destruct (run r1 s g k); auto. Qed.

Lemma many_inv {R : Type} cs s (k : string -> option R) r :
  many cs s k = Some r ->
  exists p s1, s = (p ++ s1)%string /\ all cs p = true /\ k s1 = Some r.
Proof.
  induction s as [|c s IH]; simpl; intros H.
  - now exists EmptyString, EmptyString.
  - destruct (accepts cs c) eqn:Hc.
    + destruct (many cs s k) as [r'|] eqn:Hm.
      * destruct (IH H) as [p [s1 [-> [Hp Hk]]]].
        exists (String c p), s1. simpl. rewrite Hc, Hp. now repeat split.
      * now exists EmptyString, (String c s).
    + now exists EmptyString, (String c s).
Qed.

Lemma many_greedy {R : Type} cs p s1 (k : string -> option R) r :
  all cs p = true -> startsIn cs s1 = false -> k s1 = Some r ->
  many cs (p ++ s1) k = Some r.
Proof.
  intros Hp Hs Hk. induction p as [|c p IH]; simpl in *.
  - destruct s1 as [|c s1]; simpl in *; [assumption | now rewrite Hs].
  - apply andb_true_iff in Hp. destruct Hp as [Hc Hp].
    now rewrite Hc, (IH Hp).
Qed.

Lemma many_total {R : Type} cs s (k : string -> option R) :
  (forall s', k s' <> None) ->
  exists p s1, s = (p ++ s1)%string /\ all cs p = true /\ startsIn cs s1 = false
               /\ many cs s k = k s1.
Proof.
  intros Hk. induction s as [|c s IH]; simpl.
  - now exists EmptyString, EmptyString.
  - destruct (accepts cs c) eqn:Hc.
    + destruct IH as [p [s1 [-> [Hp [Hs Hm]]]]].
      exists (String c p), s1. simpl. rewrite Hc, Hp, Hm.
      repeat split; try assumption.
      destruct (k s1) eqn:Hk1; [reflexivity | now apply Hk in Hk1].
    + exists EmptyString, (String c s). simpl. auto.
Qed.

Lemma run_Plus_greedy cs p s1 g k m :
  p <> EmptyString -> all cs p = true -> startsIn cs s1 = false -> k s1 g = Some m ->
  run (Plus cs) (p ++ s1) g k = Some m.
Proof.
  intros Hne Hp Hs Hk. destruct p as [|c p]; [congruence |]. simpl in *.
  apply andb_true_iff in Hp. destruct Hp as [Hc Hp]. rewrite Hc.
  now apply (many_greedy cs p s1 (fun s'' => k s'' g)).
Qed.

Lemma run_Plus_inv cs s g k m :
  run (Plus cs) s g k = Some m ->
  exists p s1, s = (p ++ s1)%string /\ p <> EmptyString /\ all cs p = true
               /\ k s1 g = Some m.
Proof.
  destruct s as [|c s]; simpl; [discriminate |].
  destruct (accepts cs c) eqn:Hc; [| discriminate].
  intros H. apply many_inv in H. destruct H as [p [s1 [-> [Hp Hk]]]].
  exists (String c p), s1. simpl. rewrite Hc, Hp. repeat split; congruence.
Qed.

Lemma run_Plus_total_inv cs s g k m :
  (forall s' g', k s' g' <> None) ->
  run (Plus cs) s g k = Some m ->
  exists p s1, s = (p ++ s1)%string /\ p <> EmptyString /\ all cs p = true
               /\ startsIn cs s1 = false /\ k s1 g = Some m.
Proof.
  intros Hk. destruct s as [|c s]; simpl; [discriminate |].
  destruct (accepts cs c) eqn:Hc; [| discriminate].
  destruct (many_total cs s (fun s'' => k s'' g) (fun s' => Hk s' g))
    as [p [s1 [-> [Hp [Hs Hm]]]]].
  rewrite Hm. intros H.
  exists (String c p), s1. simpl. rewrite Hc, Hp. repeat split; congruence.
Qed.

End RegexFacts.

Section UrlParse.

Import Regex RegexFacts.

Lemma matchStart_complete scheme ownerType ownerName digits rest :
  projectUrlParts scheme ownerType ownerName digits rest ->
  matchStart urlParse (projectUrlOf scheme ownerType ownerName digits rest)
  = Some (urlGroups ownerType ownerName digits).
Proof.
  intros [Hscheme [Htype [Hname [Hslash [Hdigits [Hdec Hrest]]]]]].
  assert (Htail : forall g,
    run (Seq (lit "/")
        (Seq (Group "ownerName" (Plus (Except "/")))
        (Seq (lit "/projects/") (Group "projectNumber" (Plus Digit)))))
      ("/" ++ ownerName ++ "/projects/" ++ digits ++ rest) g (fun _ g' => Some g')
    = Some (("projectNumber", digits) :: ("ownerName", ownerName) :: g)).
  { intros g. rewrite run_Seq, run_lit_app, run_Seq, run_Group.
    apply run_Plus_greedy; [assumption | assumption | reflexivity |].
    rewrite captured, run_Seq, run_lit_app, run_Group.
    apply run_Plus_greedy; [assumption | assumption | assumption |].
    now rewrite captured. }
  assert (Hhost :
    run (Seq (lit "github.com/")
        (Seq (Group "ownerType" (Alt (lit "orgs") (lit "users")))
        (Seq (lit "/")
        (Seq (Group "ownerName" (Plus (Except "/")))
        (Seq (lit "/projects/") (Group "projectNumber" (Plus Digit)))))))
      ("github.com/" ++ ownerType ++ "/" ++ ownerName ++ "/projects/" ++ digits ++ rest)
      [] (fun _ g' => Some g')
    = Some (urlGroups ownerType ownerName digits)).
  { rewrite run_Seq, run_lit_app, run_Seq, run_Group, run_Alt.
    destruct Htype as [-> | ->].
    - rewrite run_lit_app, captured, Htail. reflexivity.
    - rewrite run_lit_mismatch by reflexivity.
      rewrite run_lit_app, captured, Htail. reflexivity. }
  unfold matchStart, urlParse, projectUrlOf. rewrite run_Seq, run_Opt.
  destruct Hscheme as [-> | ->].
  - rewrite run_lit_mismatch by reflexivity. exact Hhost.
  - rewrite run_lit_app. now rewrite Hhost.
Qed.

Lemma matchStart_sound url g :
  matchStart urlParse url = Some g ->
  exists scheme ownerType ownerName digits rest,
    url = projectUrlOf scheme ownerType ownerName digits rest
    /\ projectUrlParts scheme ownerType ownerName digits rest
    /\ g = urlGroups ownerType ownerName digits.
Proof.
  unfold matchStart, urlParse. rewrite run_Seq. intros H.
  assert (Hhost : exists scheme s0,
    url = (scheme ++ s0)%string /\ (scheme = EmptyString \/ scheme = "https://")
    /\ run (Seq (lit "github.com/")
           (Seq (Group "ownerType" (Alt (lit "orgs") (lit "users")))
           (Seq (lit "/")
           (Seq (Group "ownerName" (Plus (Except "/")))
           (Seq (lit "/projects/") (Group "projectNumber" (Plus Digit)))))))
         s0 [] (fun _ g' => Some g') = Some g).
  { apply run_Opt_inv in H. destruct H as [H | H].
    - apply run_lit_inv in H. destruct H as [s0 [-> H]].
      exists "https://", s0. repeat split; auto.
    - exists EmptyString, url. repeat split; auto. }
  clear H. destruct Hhost as [scheme [s0 [-> [Hscheme H]]]].
  rewrite run_Seq in H. apply run_lit_inv in H. destruct H as [s1 [-> H]].
  rewrite run_Seq, run_Group in H.
  assert (Htype : exists ownerType s2,
    s1 = (ownerType ++ s2)%string /\ (ownerType = "orgs" \/ ownerType = "users")
    /\ run (Seq (lit "/")
           (Seq (Group "ownerName" (Plus (Except "/")))
           (Seq (lit "/projects/") (Group "projectNumber" (Plus Digit)))))
         s2 [("ownerType", ownerType)] (fun _ g' => Some g') = Some g).
  { apply run_Alt_inv in H.
    destruct H as [H | H]; apply run_lit_inv in H; destruct H as [s2 [-> H]];
      rewrite captured in H; eexists; exists s2; repeat split; eauto. }
  clear H. destruct Htype as [ownerType [s2 [-> [Htype H]]]].
  rewrite run_Seq in H. apply run_lit_inv in H. destruct H as [s3 [-> H]].
  rewrite run_Seq, run_Group in H. apply run_Plus_inv in H.
  destruct H as [ownerName [s4 [-> [Hname [Hslash H]]]]].
  rewrite captured, run_Seq in H. apply run_lit_inv in H. destruct H as [s5 [-> H]].
  rewrite run_Group in H. apply run_Plus_total_inv in H; [| discriminate].
  destruct H as [digits [rest [-> [Hdigits [Hdec [Hrest H]]]]]].
  rewrite captured in H. injection H as <-.
  exists scheme, ownerType, ownerName, digits, rest.
  unfold projectUrlParts. repeat split; assumption.
Qed.

End UrlParse.

(** [parseInt] reads a decimal numeral back. *)
Lemma parseDigits_numeral (d : Decimal.uint) (acc : N) :
  parseDigits acc (NilEmpty.string_of_uint d)
  = (acc * 10 ^ Unsigned.usize d + Unsigned.of_lu (Decimal.rev d))%N.
Proof.
  revert acc. induction d as [|d IH|d IH|d IH|d IH|d IH|d IH|d IH|d IH|d IH|d IH];
    intros acc; [simpl; lia | ..];
    unfold Decimal.rev; cbn [Decimal.revapp]; rewrite Unsigned.of_lu_revapp;
    cbn [NilEmpty.string_of_uint parseDigits Unsigned.usize Unsigned.of_lu];
    match goal with
    | |- context [Regex.isDigit ?c] =>
        change (Regex.isDigit c) with true;
        let v := eval vm_compute in (N_of_ascii c) in change (N_of_ascii c) with v
    end;
    cbv iota; rewrite IH, N.pow_succ_r'; lia.
Qed.

Lemma toDouble_exact (n : N) : (n < 2 ^ 53)%N -> toDouble n = Finite n.
Proof.
  intros Hn. unfold toDouble. cbv zeta.
  assert (Hsize : (N.size n <= 53)%N).
  { destruct (N.eq_dec n 0) as [-> | Hpos]; [cbn; lia |].
    rewrite N.size_log2 by assumption.
    apply N.le_succ_l, N.log2_lt_pow2; [lia | assumption]. }
  apply N.leb_le in Hsize. now rewrite Hsize.
Qed.

Lemma parseInt_decimal (n : N) : parseInt (decimal n) = toDouble n.
Proof.
  assert (Hv : parseDigits 0 (decimal n) = n).
  { unfold decimal. rewrite parseDigits_numeral, N.mul_0_l, N.add_0_l.
    rewrite <- Unsigned.of_uint_alt. apply DecimalN.Unsigned.of_to. }
  unfold parseInt. rewrite Hv.
  unfold decimal. destruct n as [|p]; [reflexivity |].
  simpl N.to_uint.
  pose proof (DecimalPos.Unsigned.to_uint_nonnil p) as Hnil.
  destruct (Pos.to_uint p); [congruence | reflexivity ..].
Qed.

Lemma numeral_digits (d : Decimal.uint) :
  Regex.all Regex.Digit (NilEmpty.string_of_uint d) = true.
Proof. induction d; simpl; [reflexivity | assumption ..]. Qed.

Lemma decimal_digits (n : N) :
  decimal n <> EmptyString /\ Regex.all Regex.Digit (decimal n) = true.
Proof.
  split; [| apply numeral_digits].
  unfold decimal. destruct n as [|p]; [discriminate |]. simpl N.to_uint.
  pose proof (DecimalPos.Unsigned.to_uint_nonnil p) as Hnil.
  destruct (Pos.to_uint p); [congruence | discriminate ..].
Qed.

Lemma mustGetOwnerTypeQuery_other (t : option string) :
  t <> Some "orgs" -> t <> Some "users" ->
  mustGetOwnerTypeQuery t = Throw (UnsupportedOwnerType t).
Proof.
  intros Horgs Husers. destruct t as [t|]; [| reflexivity]. simpl.
  destruct (String.eqb_spec t "orgs") as [-> | _]; [congruence |].
  destruct (String.eqb_spec t "users") as [-> | _]; [congruence | reflexivity].
Qed.

(** C7, amended. [urlParse] accepts exactly the strings made of an optional
    [https://], the host [github.com], [/orgs/] or [/users/], an owner name
    that is not empty and holds no [/], [/projects/], one or more decimal
    digits, and then anything that does not start with a digit. For such a
    string the owner type [orgs] gives the query root [organization] and
    [users] gives [user], the owner name is the text between the slashes and
    the project number is the double nearest to the value of the digits (the
    decimal numeral of [n] gives [toDouble n], which is [n] itself below
    2^53). Every other string fails with the invalid-URL error.
    [mustGetOwnerTypeQuery] sends [orgs] to [organization], [users] to [user]
    and fails on any other token. *)
Theorem resolveProject_shape :
  (forall scheme ownerType ownerName digits rest,
     projectUrlParts scheme ownerType ownerName digits rest ->
     resolveProject (projectUrlOf scheme ownerType ownerName digits rest)
     = Ok {| projectOwnerName := Some ownerName;
             projectNumber := parseInt digits;
             ownerTypeQuery := if ownerType =? "orgs" then Organization else User |})
  /\ (forall url,
        ~ (exists scheme ownerType ownerName digits rest,
             url = projectUrlOf scheme ownerType ownerName digits rest
             /\ projectUrlParts scheme ownerType ownerName digits rest) ->
        resolveProject url = Throw (InvalidProjectURL url))
  /\ (forall digits,
        digits <> EmptyString -> Regex.all Regex.Digit digits = true ->
        parseInt digits = toDouble (parseDigits 0 digits))
  /\ (forall scheme ownerType ownerName n rest,
        projectUrlParts scheme ownerType ownerName (decimal n) rest ->
        resolveProject (projectUrlOf scheme ownerType ownerName (decimal n) rest)
        = Ok {| projectOwnerName := Some ownerName;
                projectNumber := toDouble n;
                ownerTypeQuery := if ownerType =? "orgs" then Organization else User |})
  /\ (forall scheme ownerType ownerName n rest,
        (n < 2 ^ 53)%N ->
        projectUrlParts scheme ownerType ownerName (decimal n) rest ->
        resolveProject (projectUrlOf scheme ownerType ownerName (decimal n) rest)
        = Ok {| projectOwnerName := Some ownerName;
                projectNumber := Finite n;
                ownerTypeQuery := if ownerType =? "orgs" then Organization else User |})
  /\ (mustGetOwnerTypeQuery (Some "orgs") = Ok Organization
      /\ queryRoot Organization = "organization")
  /\ (mustGetOwnerTypeQuery (Some "users") = Ok User
      /\ queryRoot User = "user")
  /\ (forall t, t <> Some "orgs" -> t <> Some "users" ->
        mustGetOwnerTypeQuery t = Throw (UnsupportedOwnerType t)).
Proof.
  split; [| split; [| split; [| split; [| split; [| split; [| split]]]]]].
  - intros scheme ownerType ownerName digits rest Hparts.
    unfold resolveProject. rewrite (matchStart_complete _ _ _ _ _ Hparts).
    destruct Hparts as [_ [[-> | ->] _]]; reflexivity.
  - intros url Hshape. unfold resolveProject.
    destruct (Regex.matchStart urlParse url) as [g|] eqn:Hm; [| reflexivity].
    exfalso. apply Hshape.
    destruct (matchStart_sound _ _ Hm) as [scheme [ot [on [ds [rest [Hu [Hp _]]]]]]].
    now exists scheme, ot, on, ds, rest.
  - intros [|c digits] Hne Hall; [congruence |].
    cbn [Regex.all Regex.accepts] in Hall. apply andb_true_iff in Hall.
    unfold parseInt. now rewrite (proj1 Hall).
  - intros scheme ownerType ownerName n rest Hparts.
    unfold resolveProject. rewrite (matchStart_complete _ _ _ _ _ Hparts).
    cbn [Regex.lookup urlGroups String.eqb Ascii.eqb Bool.eqb].
    rewrite parseInt_decimal.
    destruct Hparts as [_ [[-> | ->] _]]; reflexivity.
  - intros scheme ownerType ownerName n rest Hn Hparts.
    unfold resolveProject. rewrite (matchStart_complete _ _ _ _ _ Hparts).
    cbn [Regex.lookup urlGroups String.eqb Ascii.eqb Bool.eqb].
    rewrite parseInt_decimal, (toDouble_exact n Hn).
    destruct Hparts as [_ [[-> | ->] _]]; reflexivity.
  - now split.
  - now split.
  - exact mustGetOwnerTypeQuery_other.
Qed.

Lemma resolveProject_shape_witness :
  resolveProject "https://github.com/users/jane/projects/3/views/1"
  = Ok {| projectOwnerName := Some "jane"; projectNumber := Finite 3;
          ownerTypeQuery := User |}
  /\ resolveProject "github.com/projects/3" = Throw (InvalidProjectURL "github.com/projects/3")
  /\ resolveProject (projectUrlOf EmptyString "orgs" "acme" (decimal 7) EmptyString)
     = Ok {| projectOwnerName := Some "acme"; projectNumber := Finite 7;
             ownerTypeQuery := Organization |}
  /\ mustGetOwnerTypeQuery (Some "teams") = Throw (UnsupportedOwnerType (Some "teams")).
Proof.
  split; [| split; [| split]].
  - apply (proj1 resolveProject_shape "https://" "users" "jane" "3" "/views/1").
    unfold projectUrlParts. repeat split; (discriminate || auto).
  - apply (proj1 (proj2 resolveProject_shape)).
    intros [scheme [ot [on [ds [rest [Hu [[Hs | Hs] [[Ht | Ht] _]]]]]]]];
      subst; discriminate Hu.
  - apply (proj1 (proj2 (proj2 (proj2 (proj2 resolveProject_shape))))
             EmptyString "orgs" "acme" 7%N EmptyString).
    + reflexivity.
    + unfold projectUrlParts. repeat split; (discriminate || auto).
  - apply (proj2 (proj2 (proj2 (proj2 (proj2 (proj2 (proj2 resolveProject_shape)))))));
      discriminate.
Defined.

(** C7 as stated fails on both sides. A URL of the shape
    [.../orgs/acme/projects/7] on another host is refused, and a string that
    goes on after the digits of the project number is accepted. From 2^53 on
    the project number is not always the number written in the URL. *)
Lemma resolveProject_other_shapes :
  resolveProject "https://example.com/orgs/acme/projects/7"
  = Throw (InvalidProjectURL "https://example.com/orgs/acme/projects/7")
  /\ resolveProject "https://github.com/orgs/acme/projects/7up"
     = Ok {| projectOwnerName := Some "acme"; projectNumber := Finite 7;
             ownerTypeQuery := Organization |}
  /\ resolveProject "https://github.com/orgs/acme/projects/9007199254740993"
     = Ok {| projectOwnerName := Some "acme"; projectNumber := Finite 9007199254740992;
             ownerTypeQuery := Organization |}.
Proof. repeat split; vm_compute; reflexivity. Qed.

(* ================================================================== *)
(** * The run, stage by stage *)
(* ================================================================== *)

Lemma filterStage_run {St : Type} (cfg : FilterConfig) (ctx : EventContext) (s : St) :
  exists t o, filterStage cfg ctx s = (t, s, o)
              /\ Forall (fun e => isInfo e = true) t
              /\ o <> OutOfFuel.
Proof.
  unfold filterStage, bind. cbv zeta.
  destruct (labelStage_cases cfg ctx s) as [[_ Hs] | [_ [m Hs]]]; rewrite Hs.
  - generalize (milestoneEnabled (isTrue (fuzzyMatch cfg)) (milestoned cfg)
                  (issueMilestone ctx)) as enabled.
    intros [[|]|e];
      destruct (isTrue (fuzzyMatch cfg));
      destruct (Nat.ltb 0 (List.length (milestoned cfg)));
      destruct (isTrue (removeUnmatched cfg));
      cbn; do 2 eexists; (split; [reflexivity |]); split;
        try discriminate; repeat constructor.
  - do 2 eexists. split; [reflexivity |]. split; [| discriminate].
    repeat constructor.
Qed.

Lemma filter_none {A : Type} (f : A -> bool) (l : list A) :
  (forall x, In x l -> f x = false) -> filter f l = [].
Proof.
  induction l as [|a l IH]; intros H; simpl; [reflexivity |].
  rewrite (H a (or_introl eq_refl)). apply IH. intros x Hx. apply H. now right.
Qed.

(* ================================================================== *)
(** * Whole runs *)
(* ================================================================== *)

Lemma filterStage_state {St : Type} (cfg : FilterConfig) (ctx : EventContext) (s : St) :
  filterStage cfg ctx s
  = (trace (filterStage cfg ctx tt), s, outcome (filterStage cfg ctx tt)).
Proof.
  unfold filterStage, labelStage, bind, trace, outcome. cbv zeta.
  generalize (milestoneEnabled (isTrue (fuzzyMatch cfg)) (milestoned cfg)
                (issueMilestone ctx)) as enabled.
  intros [[|]|e];
    destruct (labelOperator cfg =? "and");
    destruct (labelOperator cfg =? "not");
    destruct (Js.every (fun l => Js.includes (issueLabels ctx) l) (labeled cfg));
    destruct (Js.some (fun l => Js.includes (labeled cfg) l) (issueLabels ctx));
    destruct (Nat.ltb 0 (List.length (labeled cfg)));
    destruct (isTrue (fuzzyMatch cfg));
    destruct (Nat.ltb 0 (List.length (milestoned cfg)));
    destruct (isTrue (removeUnmatched cfg)); reflexivity.
Qed.

Lemma decide_outcome (cfg : FilterConfig) (ctx : EventContext) :
  outcome (filterStage cfg ctx tt)
  = match decide cfg ctx with
    | Value REMOVE => Value true
    | Value ADD => Value false
    | Value SKIP | Returned => Returned
    | Thrown e => Thrown e
    | OutOfFuel => OutOfFuel
    end.
Proof.
  unfold decide. now destruct (outcome (filterStage cfg ctx tt)) as [[|] | | e |].
Qed.

Lemma filterStage_log (cfg : FilterConfig) (ctx : EventContext) :
  Forall (fun e => isInfo e = true) (trace (filterStage cfg ctx tt))
  /\ decide cfg ctx <> OutOfFuel /\ decide cfg ctx <> Returned.
Proof.
  destruct (filterStage_run cfg ctx tt) as [t [o [Hrun [Ht Ho]]]].
  unfold decide. rewrite Hrun. cbn [trace outcome fst snd]. split; [exact Ht |].
  destruct o as [[|] | | e |]; split; congruence.
Qed.

Lemma filter_infos (f : Event -> bool) (log : Trace) :
  Forall (fun e => isInfo e = true) log -> (forall m, f (Info m) = false) ->
  filter f log = [].
Proof.
  intros Hlog Hf. apply filter_none. intros e He.
  rewrite Forall_forall in Hlog. specialize (Hlog e He).
  destruct e; try discriminate Hlog. apply Hf.
Qed.

Section Stages.

Context {ops : StringOps}.
Context {St : Type}.
Variable remote : Remote St.


Lemma removeFromProject_throws fuel number projectId issue s :
  removeFromProject remote fuel number projectId issue s
  = ([], s, match fuel with
            | O => OutOfFuel
            | S _ => Thrown (ReferenceError "ownerName")
            end).
Proof. destruct fuel; reflexivity. Qed.

(** The run, stage by stage: required inputs, client, filters, project URL,
    lookup, branch. *)
Lemma addToProject_stages fuel env payload s :
  INPUT_PROJECT_URL env <> EmptyString -> INPUT_GITHUB_TOKEN env <> EmptyString ->
  trim (INPUT_GITHUB_TOKEN env) <> EmptyString ->
  let cfg := readFilterConfig env in
  let issue := payloadIssue payload in
  let ctx := readEventContext issue in
  let log := trace (filterStage cfg ctx tt) in
  addToProject remote fuel env payload s
  = match decide cfg ctx with
    | Value SKIP | Returned => (log, s, Returned)
    | Value d =>
        match resolveProject (trim (INPUT_PROJECT_URL env)) with
        | Throw e => (log, s, Thrown e)
        | Ok project =>
            let '(reply, s1) :=
              getProject remote (ownerTypeQuery project) (projectOwnerName project)
                (projectNumber project) s in
            match reply with
            | Rejected message =>
                (log ++ [lookupOf project reply], s1, Thrown (RequestError message))
            | Resolved idResp =>
                let projectId :=
                  ProjectNodeIDResponse.projectId idResp (ownerTypeQuery project) in
                let contentId := option_map Payload.node_id issue in
                match isRemove d, issue with
                | true, Some i =>
                    (log ++ [lookupOf project reply], s1,
                     match fuel with
                     | O => OutOfFuel
                     | S _ => Thrown (ReferenceError "ownerName")
                     end)
                | _, _ =>
                    let '(added, s2) := addIssueToProject remote contentId projectId s1 in
                    let output := fun r =>
                      SetOutput "itemId"
                        (OutString (addProjectNextItem_projectNextItem_id r)) in
                    (log ++ lookupOf project reply
                         :: AddIssueToProject contentId projectId added
                         :: fst (settled added output),
                     s2, snd (settled added output))
                end
            end
        end
    | Thrown e => (log, s, Thrown e)
    | OutOfFuel => (log, s, OutOfFuel)
    end.
Proof.
  intros Hurl Htoken Hauth. cbv zeta.
  apply JsFacts.nonEmpty_true in Hurl, Htoken, Hauth.
  unfold addToProject, getRequiredInput, getOctokit, bind. rewrite Hurl, Htoken.
  cbn [ret app]. rewrite Hauth. cbn [ret app].
  rewrite filterStage_state, decide_outcome.
  destruct (decide _ _) as [[| |] | | e |]; try reflexivity;
    unfold afterFilters, bind;
    (destruct (resolveProject (trim (INPUT_PROJECT_URL env))) as [project|e];
     [| cbn; now rewrite app_nil_r]);
    cbn [lift ret app]; unfold await, lookupOf;
    (destruct (getProject remote _ _ _ s) as [[idResp|message] s1]; [| reflexivity]);
    cbn [isRemove]; unfold afterLookup.
  - unfold addIssue, bind, await.
    now destruct (addIssueToProject remote _ _ s1) as [[added|message] s2].
  - destruct (payloadIssue payload) as [i|] eqn:Hissue.
    + rewrite removeFromProject_throws. cbn [app]. reflexivity.
    + unfold addIssue, bind, await.
      now destruct (addIssueToProject remote _ _ s1) as [[added|message] s2].
Qed.

(** A run fails on a required input or on the client, or has one of the
    shapes of [RunShape]. *)
Lemma addToProject_cases fuel env payload s :
  let cfg := readFilterConfig env in
  let issue := payloadIssue payload in
  let ctx := readEventContext issue in
  let r := addToProject remote fuel env payload s in
  (trace r = [] /\ snd (fst r) = s
   /\ ((outcome r = Thrown (InputRequired "project-url")
        /\ INPUT_PROJECT_URL env = EmptyString)
       \/ (outcome r = Thrown (InputRequired "github-token")
           /\ INPUT_GITHUB_TOKEN env = EmptyString)
       \/ (outcome r = Thrown AuthRequired
           /\ trim (INPUT_GITHUB_TOKEN env) = EmptyString)))
  \/ (Forall (fun e => isInfo e = true) (trace (filterStage cfg ctx tt))
      /\ RunShape fuel (trace (filterStage cfg ctx tt)) (decide cfg ctx)
           (resolveProject (trim (INPUT_PROJECT_URL env))) issue
           (trace r) (outcome r)).
Proof.
  cbv zeta.
  destruct (INPUT_PROJECT_URL env) as [|c url] eqn:Hurl.
  { left. unfold addToProject, getRequiredInput, bind. rewrite Hurl.
    repeat split. now left. }
  destruct (INPUT_GITHUB_TOKEN env) as [|c' token] eqn:Htoken.
  { left. unfold addToProject, getRequiredInput, bind. rewrite Hurl, Htoken.
    repeat split. right. now left. }
  destruct (trim (String c' token)) as [|c'' token'] eqn:Hauth.
  { left. unfold addToProject, getRequiredInput, getOctokit, bind.
    rewrite Hurl, Htoken. cbn [Js.nonEmpty ret]. rewrite Hauth.
    repeat split. right. now right. }
  right.
  pose proof (filterStage_log (readFilterConfig env)
                (readEventContext (payloadIssue payload))) as [Hlog [Hfuel Hret]].
  split; [exact Hlog |].
  rewrite <- Hurl.
  rewrite (addToProject_stages fuel env payload s)
    by (rewrite ?Hurl, ?Htoken, ?Hauth; discriminate).
  cbv zeta. set (log := trace (filterStage _ _ tt)) in *.
  destruct (decide _ _) as [d | | e |] eqn:Hd; [| congruence | | congruence].
  2: { now apply run_filter_threw. }
  destruct d; [now apply run_skipped | |];
    (destruct (resolveProject (trim (INPUT_PROJECT_URL env))) as [project|e] eqn:Hres;
     [| eapply run_url_refused; eauto; discriminate]);
    (destruct (getProject remote _ _ _ s) as [[idResp|message] s1];
     [| eapply run_lookup_rejected; eauto; discriminate]);
    cbn [isRemove].
  - destruct (addIssueToProject remote _ _ s1) as [added s2]. cbn [trace outcome fst snd].
    eapply run_added; eauto; discriminate.
  - destruct (payloadIssue payload) as [i|] eqn:Hissue.
    + cbn [trace outcome fst snd]. destruct fuel as [|fuel].
      * eapply run_removal_cut; eauto.
      * eapply run_removal_threw; eauto. lia.
    + destruct (addIssueToProject remote _ _ s1) as [added s2]. cbn [trace outcome fst snd].
      eapply run_added; eauto; discriminate.
Qed.

End Stages.

(* ================================================================== *)
(** * The lookup reply and the removal path *)
(* ================================================================== *)

Ltac crack H :=
  repeat match type of H with
         | In _ (_ ++ _) => apply in_app_or in H; destruct H as [H | H]
         | In _ (_ :: _) => destruct H as [H | H]
         | In _ [] => destruct H
         | In _ (fst (settled ?reply _)) => destruct reply; cbn [settled fst snd] in *
         end.

Ltac not_in_log H Hlog :=
  let Hi := fresh in
  pose proof (proj1 (Forall_forall _ _) Hlog _ H) as Hi; discriminate Hi.

Lemma info_sends_nothing (log : Trace) (e : Event) (projectId : option string) :
  Forall (fun e => isInfo e = true) log -> In e log ->
  mutationProjectId e = Some projectId -> False.
Proof.
  intros Hlog Hin Hm. pose proof (proj1 (Forall_forall _ _) Hlog _ Hin) as Hi.
  destruct e; discriminate.
Qed.

Section RunClaims.

Context {ops : StringOps}.
Context {St : Type}.
Variable remote : Remote St.

(** C5, amended. When the reply to the project lookup has no field for the
    owner type of the URL, the run does not fail there: [projectId] is
    undefined, and every mutation the run sends carries the undefined
    [projectId]. When the filters decided to add, or the payload has no
    issue, the add mutation is sent with it: the run then completes with the
    output [itemId] if the remote resolves the mutation, and fails only with
    the rejection of that mutation. *)
Theorem lookup_without_project fuel env payload s root login number idResp :
  let issue := payloadIssue payload in
  let r := addToProject remote fuel env payload s in
  In (GetProject root login number (Resolved idResp)) (trace r) ->
  ProjectNodeIDResponse.projectId idResp root = None ->
  (forall e projectId,
     In e (trace r) -> mutationProjectId e = Some projectId -> projectId = None)
  /\ (decide (readFilterConfig env) (readEventContext issue) = Value ADD \/ issue = None ->
      exists reply,
        In (AddIssueToProject (option_map Payload.node_id issue) None reply) (trace r)
        /\ (forall added, reply = Resolved added ->
              outcome r = Value tt
              /\ In (SetOutput "itemId"
                       (OutString (addProjectNextItem_projectNextItem_id added)))
                    (trace r))
        /\ (forall e, outcome r = Thrown e ->
              exists message, reply = Rejected message /\ e = RequestError message)).
Proof.
  cbv zeta. intros Hin Hnone.
  destruct (addToProject_cases remote fuel env payload s)
    as [[Hnil _] | [Hlog Hshape]].
  { rewrite Hnil in Hin. destruct Hin. }
  destruct Hshape as [Hd | e Hd | d e Hd Hgo Hres | d project message Hd Hgo Hres
                      | d project idResp' reply Hd Hgo Hres Hwhy
                      | project idResp' i Hd Hres Hissue Hfuel
                      | project idResp' i Hd Hres Hissue Hfuel].
  - now not_in_log Hin Hlog.
  - now not_in_log Hin Hlog.
  - now not_in_log Hin Hlog.
  - crack Hin; [now not_in_log Hin Hlog | discriminate Hin].
  - assert (Hid : ProjectNodeIDResponse.projectId idResp' (ownerTypeQuery project) = None).
    { crack Hin; try (now not_in_log Hin Hlog); try discriminate Hin.
      all: unfold lookupOf in Hin; injection Hin as <- _ _ <-; exact Hnone. }
    rewrite Hid. clear Hin. split.
    + intros ev projectId Hev Hm.
      crack Hev; try (now destruct (info_sends_nothing _ _ _ Hlog Hev Hm));
        subst ev; cbn in Hm; congruence.
    + intros _. exists reply. split; [apply in_or_app; right; right; now left |].
      split.
      * intros added ->. cbn [settled fst snd]. split; [reflexivity |].
        apply in_or_app. right. right. right. now left.
      * intros e He. destruct reply as [added|message]; cbn [settled snd] in He;
          [discriminate He |]. injection He as <-. now exists message.
  - split.
    + intros ev projectId Hev Hm.
      crack Hev; [now destruct (info_sends_nothing _ _ _ Hlog Hev Hm) |].
      subst ev. discriminate Hm.
    + intros [Hadd | Hno]; congruence.
  - split.
    + intros ev projectId Hev Hm.
      crack Hev; [now destruct (info_sends_nothing _ _ _ Hlog Hev Hm) |].
      subst ev. discriminate Hm.
    + intros [Hadd | Hno]; congruence.
Qed.

(** C6. On the removal path the claim fails in the code. When the filters
    decide to remove and the payload has an issue, the run never ends
    successfully, with or without a warning: it sends no page query, logs no
    warning, sends no mutation and sets no output, and once the lookup is
    answered it throws the [ReferenceError] of the unbound [ownerName]
    (line 182), whether or not the project holds an item linked to the
    issue. *)
Theorem removal_never_ends_well fuel env payload s i :
  0 < fuel ->
  decide (readFilterConfig env) (readEventContext (payloadIssue payload)) = Value REMOVE ->
  payloadIssue payload = Some i ->
  let r := addToProject remote fuel env payload s in
  (exists e, outcome r = Thrown e)
  /\ filter isPageQuery (trace r) = []
  /\ filter isWarning (trace r) = []
  /\ filter isMutation (trace r) = []
  /\ filter isOutput (trace r) = []
  /\ forall root login number idResp,
       In (GetProject root login number (Resolved idResp)) (trace r) ->
       outcome r = Thrown (ReferenceError "ownerName").
Proof.
  intros Hfuel Hremove Hissue. cbv zeta.
  destruct (addToProject_cases remote fuel env payload s)
    as [[Hnil [_ Hout]] | [Hlog Hshape]].
  { rewrite Hnil. split; [| now repeat split].
    destruct Hout as [[-> _] | [[-> _] | [-> _]]]; now eexists. }
  assert (Hnone : forall f, (forall m, f (Info m) = false) ->
            filter f (trace (filterStage (readFilterConfig env)
                               (readEventContext (payloadIssue payload)) tt)) = []).
  { intros f Hf. now apply filter_infos. }
  rewrite Hremove, Hissue in Hshape. rewrite Hissue in Hlog, Hnone.
  destruct Hshape as [Hd | e Hd | d e Hd Hgo Hres | d project message Hd Hgo Hres
                      | d project idResp' reply Hd Hgo Hres Hwhy
                      | project idResp' j Hd Hres Hj Hpos
                      | project idResp' j Hd Hres Hj Hzero];
    try discriminate Hd.
  - split; [now eexists |]. rewrite !Hnone by reflexivity. repeat split.
    intros root login number idResp Hin. now not_in_log Hin Hlog.
  - split; [now eexists |]. rewrite !filter_app, !Hnone by reflexivity. repeat split.
    intros root login number idResp Hin.
    crack Hin; [now not_in_log Hin Hlog | discriminate Hin].
  - injection Hd as <-. destruct Hwhy as [Hadd | Hno]; discriminate.
  - split; [now eexists |]. rewrite !filter_app, !Hnone by reflexivity. repeat split.
  - lia.
Qed.


End RunClaims.



Lemma lookup_without_project_witness :
  let issue := payloadIssue (Sample.payload Sample.issue12) in
  let env := Sample.env "" "" "" "" "" in
  let r := addToProject (ops := AsciiOps.ops)
             (Sample.server Sample.notFound (Some (Sample.items 3))) 5 env
             (Sample.payload Sample.issue12) 0 in
  (forall e projectId,
     In e (trace r) -> mutationProjectId e = Some projectId -> projectId = None)
  /\ (decide (readFilterConfig (ops := AsciiOps.ops) env)
        (readEventContext (ops := AsciiOps.ops) issue) = Value ADD \/ issue = None ->
      exists reply,
        In (AddIssueToProject (option_map Payload.node_id issue) None reply) (trace r)
        /\ (forall added, reply = Resolved added ->
              outcome r = Value tt
              /\ In (SetOutput "itemId"
                       (OutString (addProjectNextItem_projectNextItem_id added)))
                    (trace r))
        /\ (forall e, outcome r = Thrown e ->
              exists message, reply = Rejected message /\ e = RequestError message)).
Proof.
  apply (lookup_without_project (ops := AsciiOps.ops)
           (Sample.server Sample.notFound (Some (Sample.items 3))) 5
           (Sample.env "" "" "" "" "") (Sample.payload Sample.issue12) 0
           Organization (Some "acme") (Finite 7) Sample.notFound).
  - vm_compute. left. reflexivity.
  - reflexivity.
Defined.

(** C5 as stated fails: the lookup is answered without the project, and the
    run adds the issue with an undefined [projectId] and ends successfully,
    with an output. *)
Lemma missing_project_run_goes_on :
  addToProject (ops := AsciiOps.ops)
    (Sample.server Sample.notFound (Some (Sample.items 3))) 5
    (Sample.env "" "" "" "" "") (Sample.payload Sample.issue12) 0
  = ([GetProject Organization (Some "acme") (Finite 7) (Resolved Sample.notFound);
      AddIssueToProject (Some "I_12") None
        (Resolved {| addProjectNextItem_projectNextItem_id := "PNI_new" |});
      SetOutput "itemId" (OutString "PNI_new")],
     2, Value tt).
Proof. reflexivity. Qed.

Lemma removal_never_ends_well_witness :
  let r := addToProject (ops := AsciiOps.ops)
             (Sample.server Sample.inOrganization (Some (Sample.items 250))) 3
             (Sample.env "" "" "v2" "true" "") (Sample.payload Sample.issue230) 0 in
  (exists e, outcome r = Thrown e)
  /\ filter isPageQuery (trace r) = []
  /\ filter isWarning (trace r) = []
  /\ filter isMutation (trace r) = []
  /\ filter isOutput (trace r) = []
  /\ forall root login number idResp,
       In (GetProject root login number (Resolved idResp)) (trace r) ->
       outcome r = Thrown (ReferenceError "ownerName").
Proof.
  apply (removal_never_ends_well (ops := AsciiOps.ops)
           (Sample.server Sample.inOrganization (Some (Sample.items 250))) 3
           (Sample.env "" "" "v2" "true" "") (Sample.payload Sample.issue230) 0
           Sample.issue230).
  - lia.
  - reflexivity.
  - reflexivity.
Defined.


(* ================================================================== *)
(** * Further properties of the filters *)
(* ================================================================== *)

(** X1. The three decisions, each by the condition that gives it. SKIP: the
    labels do not pass, or the milestone filter is not empty, the milestone
    match is false and [remove-unmatched] is not set. REMOVE: the labels pass,
    the milestone filter is not empty, the match is false and
    [remove-unmatched] is set. ADD: the labels pass and the milestone filter
    is empty or the match is true. *)
Theorem decision_characterised (cfg : FilterConfig) (ctx : EventContext) :
  let enabled :=
    milestoneEnabled (isTrue (fuzzyMatch cfg)) (milestoned cfg) (issueMilestone ctx) in
  (decide cfg ctx = Value SKIP <->
     labelsPass cfg ctx = false
     \/ (milestoned cfg <> [] /\ enabled = Ok false /\ isTrue (removeUnmatched cfg) = false))
  /\ (decide cfg ctx = Value REMOVE <->
        labelsPass cfg ctx = true /\ milestoned cfg <> [] /\ enabled = Ok false
        /\ isTrue (removeUnmatched cfg) = true)
  /\ (decide cfg ctx = Value ADD <->
        labelsPass cfg ctx = true /\ (milestoned cfg = [] \/ enabled = Ok true)).
Proof.
  cbv zeta. rewrite decide_rule.
  generalize (milestoneEnabled (isTrue (fuzzyMatch cfg)) (milestoned cfg)
                (issueMilestone ctx)) as enabled.
  intros enabled.
  destruct (labelsPass cfg ctx);
    destruct (milestoned cfg) as [|m ms]; cbn [List.length Nat.ltb Nat.leb];
    destruct enabled as [[|]|e];
    destruct (isTrue (removeUnmatched cfg));
    repeat split; intros; try discriminate; try congruence;
    repeat match goal with
           | H : _ /\ _ |- _ => destruct H
           | H : _ \/ _ |- _ => destruct H
           end;
    try discriminate; try congruence; auto;
    try (right; repeat split; congruence).
Qed.

(** X2. An empty label filter lets every issue through, under any operator.
    An issue without labels passes a non-empty filter under [not] only. *)
Theorem label_filter_edges (cfg : FilterConfig) (ctx : EventContext) :
  (labeled cfg = [] -> labelsPass cfg ctx = true)
  /\ (issueLabels ctx = [] -> labeled cfg <> [] ->
      labelsPass cfg ctx = (labelOperator cfg =? "not")).
Proof.
  split.
  - intros Hnil. unfold labelsPass, labelStage. rewrite Hnil.
    destruct (labelOperator cfg =? "and"); [reflexivity |].
    destruct (labelOperator cfg =? "not"); reflexivity.
  - intros Hnone Hsome. unfold labelsPass, labelStage. rewrite Hnone.
    destruct (labeled cfg) as [|f fs]; [congruence |].
    destruct (labelOperator cfg =? "and") eqn:Hand.
    + apply String.eqb_eq in Hand. rewrite Hand. reflexivity.
    + destruct (labelOperator cfg =? "not"); reflexivity.
Qed.

Lemma label_filter_edges_witness :
  labelsPass (Sample.config " , " "and" "" "" "") (Sample.context Sample.issue12) = true
  /\ labelsPass (Sample.config "bug" "not" "" "" "") (Sample.context Sample.issue230)
     = ("not" =? "not").
Proof.
  split.
  - apply (proj1 (label_filter_edges (Sample.config " , " "and" "" "" "")
                    (Sample.context Sample.issue12))).
    reflexivity.
  - apply (proj2 (label_filter_edges (Sample.config "bug" "not" "" "" "")
                    (Sample.context Sample.issue230))).
    + reflexivity.
    + discriminate.
Defined.

Lemma same_members_nil {A : Type} (l1 l2 : list A) :
  (forall x, In x l1 <-> In x l2) -> (l1 <> [] <-> l2 <> []).
Proof.
  intros H. destruct l1 as [|a l1], l2 as [|b l2].
  - tauto.
  - destruct (proj2 (H b) (or_introl eq_refl)).
  - destruct (proj1 (H a) (or_introl eq_refl)).
  - split; intros _; discriminate.
Qed.

(** X3. The label filter looks at which labels the issue has and which
    entries the filter has, not at their order or at repetitions. *)
Theorem labels_as_sets (cfg1 cfg2 : FilterConfig) (ctx1 ctx2 : EventContext) :
  labelOperator cfg1 = labelOperator cfg2 ->
  (forall f, In f (labeled cfg1) <-> In f (labeled cfg2)) ->
  (forall l, In l (issueLabels ctx1) <-> In l (issueLabels ctx2)) ->
  labelsPass cfg1 ctx1 = labelsPass cfg2 ctx2.
Proof.
  intros Hop Hf Hl.
  assert (Hlen : Nat.ltb 0 (List.length (labeled cfg1))
                 = Nat.ltb 0 (List.length (labeled cfg2))).
  { apply Bool.eq_true_iff_eq. rewrite !JsFacts.length_pos.
    now apply same_members_nil. }
  assert (Hsome : Js.some (fun l => Js.includes (labeled cfg1) l) (issueLabels ctx1)
                  = Js.some (fun l => Js.includes (labeled cfg2) l) (issueLabels ctx2)).
  { apply Bool.eq_true_iff_eq. rewrite !JsFacts.some_includes.
    split; intros [f [H1 H2]]; exists f; split;
      solve [now apply Hf | now apply Hl]. }
  assert (Hevery : Js.every (fun l => Js.includes (issueLabels ctx1) l) (labeled cfg1)
                   = Js.every (fun l => Js.includes (issueLabels ctx2) l) (labeled cfg2)).
  { apply Bool.eq_true_iff_eq. rewrite !JsFacts.every_includes.
    split; intros H f Hin; apply Hl, H, Hf, Hin. }
  destruct (String.eqb_spec (labelOperator cfg1) "and") as [Hand | Hand].
  { rewrite (labelsPass_and cfg1 ctx1 Hand).
    rewrite Hop in Hand. now rewrite (labelsPass_and cfg2 ctx2 Hand). }
  destruct (String.eqb_spec (labelOperator cfg1) "not") as [Hnot | Hnot].
  { rewrite (labelsPass_not cfg1 ctx1 Hnot).
    rewrite Hop in Hnot. rewrite (labelsPass_not cfg2 ctx2 Hnot). now rewrite Hlen, Hsome. }
  rewrite (labelsPass_or cfg1 ctx1 Hand Hnot).
  rewrite Hop in Hand, Hnot. rewrite (labelsPass_or cfg2 ctx2 Hand Hnot).
  now rewrite Hlen, Hsome.
Qed.

Lemma labels_as_sets_witness :
  labelsPass {| labeled := ["bug"; "urgent"]; labelOperator := "and"; milestoned := [];
                removeUnmatched := EmptyString; fuzzyMatch := EmptyString |}
             {| issueNumber := None; issueLabels := ["urgent"; "bug"; "bug"];
                issueMilestone := None |}
  = labelsPass {| labeled := ["urgent"; "bug"; "urgent"]; labelOperator := "and";
                  milestoned := ["v1"]; removeUnmatched := EmptyString;
                  fuzzyMatch := EmptyString |}
               {| issueNumber := Some 4%N; issueLabels := ["bug"; "urgent"];
                  issueMilestone := None |}.
Proof.
  apply labels_as_sets.
  - reflexivity.
  - intros f. simpl. tauto.
  - intros l. simpl. tauto.
Defined.

(* ================================================================== *)
(** * Further properties of the run *)
(* ================================================================== *)

Lemma resolveProject_error (url : string) (e : Error) :
  resolveProject url = Throw e -> e = InvalidProjectURL url.
Proof.
  unfold resolveProject.
  destruct (Regex.matchStart urlParse url) as [g|] eqn:Hm; [| congruence].
  destruct (matchStart_sound _ _ Hm) as [scheme [ot [on [ds [rest [_ [Hparts ->]]]]]]].
  destruct Hparts as [_ [[-> | ->] _]]; discriminate.
Qed.

Lemma decide_error (cfg : FilterConfig) (ctx : EventContext) (e : Error) :
  decide cfg ctx = Thrown e -> e = TypeError.
Proof.
  rewrite decide_rule. unfold milestoneEnabled.
  destruct (labelsPass cfg ctx); [| discriminate].
  destruct (Nat.ltb 0 (List.length (milestoned cfg))); [| discriminate].
  destruct (negb (isTrue (fuzzyMatch cfg))).
  - destruct (issueMilestone ctx) as [t|]; [destruct (Js.includes _ t) |];
      destruct (isTrue (removeUnmatched cfg)); discriminate.
  - destruct (issueMilestone ctx) as [t|].
    + rewrite someStartsWith_title.
      destruct (Js.some _ _); destruct (isTrue (removeUnmatched cfg)); discriminate.
    + rewrite someStartsWith_undefined. destruct (milestoned cfg); [| congruence].
      destruct (isTrue (removeUnmatched cfg)); discriminate.
Qed.

(** A skip is always logged. *)
Lemma skip_is_logged (cfg : FilterConfig) (ctx : EventContext) :
  decide cfg ctx = Value SKIP -> trace (filterStage cfg ctx tt) <> [].
Proof.
  unfold decide, filterStage, labelStage, bind, trace, outcome. cbv zeta.
  generalize (milestoneEnabled (isTrue (fuzzyMatch cfg)) (milestoned cfg)
                (issueMilestone ctx)) as enabled.
  intros [[|]|e];
    destruct (labelOperator cfg =? "and");
    destruct (labelOperator cfg =? "not");
    destruct (Js.every (fun l => Js.includes (issueLabels ctx) l) (labeled cfg));
    destruct (Js.some (fun l => Js.includes (labeled cfg) l) (issueLabels ctx));
    destruct (Nat.ltb 0 (List.length (labeled cfg)));
    destruct (isTrue (fuzzyMatch cfg));
    destruct (Nat.ltb 0 (List.length (milestoned cfg)));
    destruct (isTrue (removeUnmatched cfg)); cbn; intros H; congruence.
Qed.

Section RunProperties.

Context {ops : StringOps}.
Context {St : Type}.
Variable remote : Remote St.

(** X4. When the filters decide to skip, a run that got its inputs and its
    client ends successfully after logging why: it makes no call to the
    remote, whose state is left as it was, and it does not look at the
    project URL, which may be invalid. *)
Theorem skip_makes_no_call fuel env payload s :
  INPUT_PROJECT_URL env <> EmptyString -> INPUT_GITHUB_TOKEN env <> EmptyString ->
  trim (INPUT_GITHUB_TOKEN env) <> EmptyString ->
  decide (readFilterConfig env) (readEventContext (payloadIssue payload)) = Value SKIP ->
  exists log,
    addToProject remote fuel env payload s = (log, s, Returned)
    /\ log <> [] /\ Forall (fun e => isInfo e = true) log.
Proof.
  intros Hurl Htoken Hauth Hskip.
  exists (trace (filterStage (readFilterConfig env)
                   (readEventContext (payloadIssue payload)) tt)).
  rewrite (addToProject_stages remote fuel env payload s Hurl Htoken Hauth).
  cbv zeta. rewrite Hskip. split; [reflexivity |].
  split; [now apply skip_is_logged | apply filterStage_log].
Qed.

(** X5. The two required inputs are checked first, [project-url] before
    [github-token]: when one is missing the run fails naming it, having
    logged nothing and called nothing. *)
Theorem required_inputs fuel env payload s :
  (INPUT_PROJECT_URL env = EmptyString ->
   addToProject remote fuel env payload s
   = ([], s, Thrown (InputRequired "project-url")))
  /\ (INPUT_PROJECT_URL env <> EmptyString -> INPUT_GITHUB_TOKEN env = EmptyString ->
      addToProject remote fuel env payload s
      = ([], s, Thrown (InputRequired "github-token"))).
Proof.
  split.
  - intros Hurl. unfold addToProject, getRequiredInput, bind. now rewrite Hurl.
  - intros Hurl Htoken. apply JsFacts.nonEmpty_true in Hurl.
    unfold addToProject, getRequiredInput, bind. now rewrite Hurl, Htoken.
Qed.

(** X6. A project URL that does not parse is reported only when the filters
    do not skip, and then before any call: a run that got its inputs and its
    client fails with the invalid-URL error carrying the trimmed input, and
    the remote is left as it was. *)
Theorem url_checked_after_filters fuel env payload s e :
  INPUT_PROJECT_URL env <> EmptyString -> INPUT_GITHUB_TOKEN env <> EmptyString ->
  trim (INPUT_GITHUB_TOKEN env) <> EmptyString ->
  resolveProject (trim (INPUT_PROJECT_URL env)) = Throw e ->
  let decision := decide (readFilterConfig env) (readEventContext (payloadIssue payload)) in
  let r := addToProject remote fuel env payload s in
  snd (fst r) = s
  /\ Forall (fun e => isInfo e = true) (trace r)
  /\ (decision = Value SKIP -> outcome r = Returned)
  /\ (decision = Value ADD \/ decision = Value REMOVE ->
      outcome r = Thrown (InvalidProjectURL (trim (INPUT_PROJECT_URL env)))).
Proof.
  intros Hurl Htoken Hauth Hres. cbv zeta.
  rewrite (addToProject_stages remote fuel env payload s Hurl Htoken Hauth).
  cbv zeta. rewrite Hres. apply resolveProject_error in Hres. subst e.
  pose proof (filterStage_log (readFilterConfig env)
                (readEventContext (payloadIssue payload))) as [Hlog _].
  destruct (decide _ _) as [[| |] | | e |]; cbn [trace outcome fst snd];
    repeat split; try assumption; try reflexivity;
    intros H; try discriminate H; destruct H as [H | H]; discriminate H.
Qed.

(** X7. The errors a run can fail with: a missing required input, the
    client's refusal of a token that is blank once trimmed, the [TypeError]
    of the milestone filter, the invalid-URL error for the trimmed
    [project-url], the rejection of a call it made, or the [ReferenceError]
    of the unbound [ownerName] on the removal path. The
    unsupported-owner-type error of [mustGetOwnerTypeQuery] is never raised
    by a run: the owner type it is given always comes out of [urlParse]. *)
Theorem run_errors fuel env payload s e :
  let r := addToProject remote fuel env payload s in
  outcome r = Thrown e ->
  (e = InputRequired "project-url" /\ INPUT_PROJECT_URL env = EmptyString)
  \/ (e = InputRequired "github-token" /\ INPUT_GITHUB_TOKEN env = EmptyString)
  \/ (e = AuthRequired /\ trim (INPUT_GITHUB_TOKEN env) = EmptyString)
  \/ (e = TypeError
      /\ decide (readFilterConfig env) (readEventContext (payloadIssue payload))
         = Thrown TypeError)
  \/ e = InvalidProjectURL (trim (INPUT_PROJECT_URL env))
  \/ (exists m ev, e = RequestError m /\ In ev (trace r) /\ rejection ev = Some m)
  \/ (e = ReferenceError "ownerName"
      /\ decide (readFilterConfig env) (readEventContext (payloadIssue payload))
         = Value REMOVE
      /\ payloadIssue payload <> None).
Proof.
  cbv zeta. intros Hout.
  destruct (addToProject_cases remote fuel env payload s)
    as [[_ [_ [[H Hwhy] | [[H Hwhy] | [H Hwhy]]]]] | [Hlog Hshape]].
  { rewrite H in Hout. injection Hout as <-. now left. }
  { rewrite H in Hout. injection Hout as <-. right. now left. }
  { rewrite H in Hout. injection Hout as <-. right. right. now left. }
  destruct Hshape as [Hd | e' Hd | d e' Hd Hgo Hres | d project message Hd Hgo Hres
                      | d project idResp reply Hd Hgo Hres Hwhy
                      | project idResp i Hd Hres Hissue Hfuel
                      | project idResp i Hd Hres Hissue Hfuel].
  - discriminate Hout.
  - injection Hout as <-. do 3 right. left.
    pose proof (decide_error _ _ _ Hd) as ->. now split.
  - injection Hout as <-. do 4 right. left. now apply resolveProject_error.
  - injection Hout as <-. do 5 right. left. exists message. eexists.
    split; [reflexivity |]. split.
    { apply in_or_app. right. left. reflexivity. }
    reflexivity.
  - destruct reply as [added | message]; [discriminate Hout |].
    injection Hout as <-. do 5 right. left. exists message. eexists.
    split; [reflexivity |]. split.
    { apply in_or_app. right. right. left. reflexivity. }
    reflexivity.
  - injection Hout as <-. do 6 right. split; [reflexivity |]. split; [assumption |].
    congruence.
  - discriminate Hout.
Qed.

(** X10. A rejected call is the last thing a run does: no call is retried
    and nothing follows it, and the run fails with the message of the
    rejection. *)
Theorem rejected_call_ends_the_run fuel env payload s ev m :
  let r := addToProject remote fuel env payload s in
  In ev (trace r) -> rejection ev = Some m ->
  outcome r = Thrown (RequestError m) /\ exists t, trace r = t ++ [ev].
Proof.
  cbv zeta. intros Hin Hm.
  destruct (addToProject_cases remote fuel env payload s)
    as [[Hnil _] | [Hlog Hshape]].
  { rewrite Hnil in Hin. destruct Hin. }
  assert (Hinfo : forall log, Forall (fun e => isInfo e = true) log -> ~ In ev log).
  { intros log Hall H. pose proof (proj1 (Forall_forall _ _) Hall _ H) as Hi.
    destruct ev; discriminate. }
  destruct Hshape as [Hd | e' Hd | d e' Hd Hgo Hres | d project message Hd Hgo Hres
                      | d project idResp reply Hd Hgo Hres Hwhy
                      | project idResp i Hd Hres Hissue Hfuel
                      | project idResp i Hd Hres Hissue Hfuel];
    crack Hin; try (now apply Hinfo in Hin); subst;
    try discriminate Hm.
  - injection Hm as <-. split; [reflexivity | now eexists].
  - destruct reply as [added | message]; [discriminate Hm |].
    injection Hm as <-. split; [reflexivity |].
    eexists (_ ++ [lookupOf project (Resolved idResp)]).
    rewrite <- app_assoc. reflexivity.
Qed.

End RunProperties.

Lemma RunShape_counts fuel log decision resolved issue t o :
  RunShape fuel log decision resolved issue t o ->
  Forall (fun e => isInfo e = true) log ->
  List.length (filter isMutation t) <= 1 /\ List.length (filter isOutput t) <= 1.
Proof.
  intros Hshape Hlog.
  assert (Hm : filter isMutation log = []) by now apply filter_infos.
  assert (Ho : filter isOutput log = []) by now apply filter_infos.
  destruct Hshape as [Hd | e' Hd | d e' Hd Hgo Hres | d project message Hd Hgo Hres
                      | d project idResp reply Hd Hgo Hres Hwhy
                      | project idResp i Hd Hres Hissue Hfuel
                      | project idResp i Hd Hres Hissue Hfuel];
    rewrite ?filter_app, Hm, Ho; try (cbn; lia).
  destruct reply; cbn; lia.
Qed.

Lemma RunShape_output fuel log decision resolved issue t o name v :
  RunShape fuel log decision resolved issue t o ->
  Forall (fun e => isInfo e = true) log ->
  In (SetOutput name v) t ->
  o = Value tt
  /\ exists contentId projectId added,
       In (AddIssueToProject contentId projectId (Resolved added)) t
       /\ name = "itemId"
       /\ v = OutString (addProjectNextItem_projectNextItem_id added).
Proof.
  intros Hshape Hlog Hin.
  destruct Hshape as [Hd | e' Hd | d e' Hd Hgo Hres | d project message Hd Hgo Hres
                      | d project idResp reply Hd Hgo Hres Hwhy
                      | project idResp i Hd Hres Hissue Hfuel
                      | project idResp i Hd Hres Hissue Hfuel];
    crack Hin; try (now not_in_log Hin Hlog); try discriminate Hin.
  injection Hin as <- <-. split; [reflexivity |]. do 3 eexists.
  split; [| now split]. apply in_or_app. right. right. left. reflexivity.
Qed.

Lemma RunShape_completes fuel log decision resolved issue t o :
  RunShape fuel log decision resolved issue t o ->
  o = Value tt -> exists name v, In (SetOutput name v) t.
Proof.
  intros Hshape Ho.
  destruct Hshape as [Hd | e' Hd | d e' Hd Hgo Hres | d project message Hd Hgo Hres
                      | d project idResp reply Hd Hgo Hres Hwhy
                      | project idResp i Hd Hres Hissue Hfuel
                      | project idResp i Hd Hres Hissue Hfuel];
    try discriminate Ho.
  destruct reply; [| discriminate Ho]. do 2 eexists.
  apply in_or_app. right. right. right. left. reflexivity.
Qed.

Section RunCalls.

Context {ops : StringOps}.
Context {St : Type}.
Variable remote : Remote St.

(** X8. A run looks the project up at most once, after it logged what the
    filters had to say and before any other call, and the lookup carries what
    the trimmed [project-url] resolves to: the query root of its owner type,
    its owner name and its project number. *)
Theorem one_lookup fuel env payload s root login number reply :
  let r := addToProject remote fuel env payload s in
  In (GetProject root login number reply) (trace r) ->
  resolveProject (trim (INPUT_PROJECT_URL env))
  = Ok {| projectOwnerName := login; projectNumber := number; ownerTypeQuery := root |}
  /\ filter isLookup (trace r) = [GetProject root login number reply]
  /\ exists log rest,
       trace r = log ++ GetProject root login number reply :: rest
       /\ Forall (fun e => isInfo e = true) log.
Proof.
  cbv zeta. intros Hin.
  destruct (addToProject_cases remote fuel env payload s)
    as [[Hnil _] | [Hlog Hshape]].
  { rewrite Hnil in Hin. destruct Hin. }
  assert (Hnolog : filter isLookup
                     (trace (filterStage (readFilterConfig env)
                               (readEventContext (payloadIssue payload)) tt)) = [])
    by (apply filter_infos; [assumption | reflexivity]).
  assert (Hsame : forall project reply',
    resolveProject (trim (INPUT_PROJECT_URL env)) = Ok project ->
    lookupOf project reply' = GetProject root login number reply ->
    resolveProject (trim (INPUT_PROJECT_URL env))
    = Ok {| projectOwnerName := login; projectNumber := number; ownerTypeQuery := root |}).
  { intros project reply' Hres Heq. rewrite Hres. destruct project.
    injection Heq as <- <- <- _. reflexivity. }
  destruct Hshape as [Hd | e' Hd | d e' Hd Hgo Hres | d project message Hd Hgo Hres
                      | d project idResp reply' Hd Hgo Hres Hwhy
                      | project idResp i Hd Hres Hissue Hfuel
                      | project idResp i Hd Hres Hissue Hfuel];
    crack Hin; try (now not_in_log Hin Hlog); try discriminate Hin.
  - split; [now apply (Hsame project (Rejected message)) |].
    rewrite <- Hin, filter_app, Hnolog. split; [reflexivity |]. now do 2 eexists.
  - split; [now apply (Hsame project (Resolved idResp)) |].
    rewrite <- Hin, filter_app, Hnolog. split; [now destruct reply' |]. now do 2 eexists.
  - split; [now apply (Hsame project (Resolved idResp)) |].
    rewrite <- Hin, filter_app, Hnolog. split; [reflexivity |]. now do 2 eexists.
  - split; [now apply (Hsame project (Resolved idResp)) |].
    rewrite <- Hin, filter_app, Hnolog. split; [reflexivity |]. now do 2 eexists.
Qed.

(** X9. A run sends at most one mutation and sets at most one output. It
    completes (rather than returning early or failing) exactly when it sets
    an output, and it sets one only for a mutation that resolved: [itemId],
    the id in the response of the add mutation, or [deletedItemId], the
    response of the delete mutation. *)
Theorem one_mutation_one_output fuel env payload s :
  let r := addToProject remote fuel env payload s in
  List.length (filter isMutation (trace r)) <= 1
  /\ List.length (filter isOutput (trace r)) <= 1
  /\ (outcome r = Value tt <-> exists name v, In (SetOutput name v) (trace r))
  /\ forall name v,
       In (SetOutput name v) (trace r) ->
       (exists contentId projectId added,
          In (AddIssueToProject contentId projectId (Resolved added)) (trace r)
          /\ name = "itemId"
          /\ v = OutString (addProjectNextItem_projectNextItem_id added))
       \/ (exists itemId projectId deleted,
             In (RemoveIssueFromProject itemId projectId (Resolved deleted)) (trace r)
             /\ name = "deletedItemId" /\ v = OutRemoveResponse deleted).
Proof.
  cbv zeta.
  destruct (addToProject_cases remote fuel env payload s)
    as [[Hnil [_ Ho]] | [Hlog Hshape]].
  { rewrite Hnil. split; [cbn; lia |]. split; [cbn; lia |]. split; [split |].
    - intros Hv. destruct Ho as [[Ho _] | [[Ho _] | [Ho _]]]; congruence.
    - intros [name [v []]].
    - intros name v []. }
  destruct (RunShape_counts _ _ _ _ _ _ _ Hshape Hlog) as [Hmutations Houtputs].
  split; [exact Hmutations |]. split; [exact Houtputs |]. split; [split |].
  - now apply (RunShape_completes _ _ _ _ _ _ _ Hshape).
  - intros [name [v Hin]]. now apply (RunShape_output _ _ _ _ _ _ _ _ _ Hshape Hlog Hin).
  - intros name v Hin. left.
    now apply (RunShape_output _ _ _ _ _ _ _ _ _ Hshape Hlog Hin).
Qed.

End RunCalls.

Section RunBranches.

Context {ops : StringOps}.
Context {St : Type}.
Variable remote : Remote St.

(** X11. When the payload has neither an issue nor a pull request, the run
    never takes the removal path, whatever the filters decided: it sends no
    page query and logs no warning, and the only mutation it can send is the
    add mutation, with an undefined content id. *)
Theorem no_issue_never_removes fuel env payload s :
  Payload.issue payload = None -> Payload.pull_request payload = None ->
  let r := addToProject remote fuel env payload s in
  filter isPageQuery (trace r) = []
  /\ filter isWarning (trace r) = []
  /\ forall e, In e (trace r) -> isMutation e = true ->
       exists projectId reply, e = AddIssueToProject None projectId reply.
Proof.
  intros Hissue Hpr. cbv zeta.
  assert (Hnone : payloadIssue payload = None) by (unfold payloadIssue; now rewrite Hissue).
  destruct (addToProject_cases remote fuel env payload s)
    as [[Hnil _] | [Hlog Hshape]].
  { rewrite Hnil. repeat split. intros e []. }
  rewrite Hnone in Hshape, Hlog.
  assert (Hq : filter isPageQuery
                 (trace (filterStage (readFilterConfig env)
                           (readEventContext None) tt)) = [])
    by (apply filter_infos; [assumption | reflexivity]).
  assert (Hw : filter isWarning
                 (trace (filterStage (readFilterConfig env)
                           (readEventContext None) tt)) = [])
    by (apply filter_infos; [assumption | reflexivity]).
  assert (Hinfo : forall e,
            In e (trace (filterStage (readFilterConfig env)
                           (readEventContext None) tt)) ->
            isMutation e = true -> False).
  { intros e Hin Hm. pose proof (proj1 (Forall_forall _ _) Hlog _ Hin) as Hi.
    destruct e; discriminate. }
  destruct Hshape as [Hd | e' Hd | d e' Hd Hgo Hres | d project message Hd Hgo Hres
                      | d project idResp reply Hd Hgo Hres Hwhy
                      | project idResp i Hd Hres Hi Hfuel
                      | project idResp i Hd Hres Hi Hfuel];
    try discriminate Hi;
    repeat rewrite ?filter_app, ?Hq, ?Hw.
  - repeat split. intros ev Hin Hm. now destruct (Hinfo ev).
  - repeat split. intros ev Hin Hm. now destruct (Hinfo ev).
  - repeat split. intros ev Hin Hm. now destruct (Hinfo ev).
  - repeat split. intros ev Hin Hm. crack Hin; [now destruct (Hinfo ev) |].
    subst ev. discriminate Hm.
  - split; [now destruct reply |]. split; [now destruct reply |].
    intros ev Hin Hm. crack Hin; try (now destruct (Hinfo ev)); subst ev;
      try discriminate Hm; now do 2 eexists.
Qed.

(** X14. No run reaches the steps of the removal path that follow the
    building of the first page query (lines 182-213): whatever the inputs,
    the payload and the remote, a run sends no page query, logs no warning,
    sends no delete mutation and does not set [deletedItemId]. The only
    mutation of a run is the add mutation and its only output is [itemId]. *)
Theorem removal_steps_never_reached fuel env payload s :
  let r := addToProject remote fuel env payload s in
  filter isPageQuery (trace r) = []
  /\ filter isWarning (trace r) = []
  /\ (forall e, In e (trace r) -> isMutation e = true ->
        exists contentId projectId reply, e = AddIssueToProject contentId projectId reply)
  /\ (forall name v, In (SetOutput name v) (trace r) -> name = "itemId").
Proof.
  cbv zeta.
  destruct (addToProject_cases remote fuel env payload s)
    as [[Hnil _] | [Hlog Hshape]].
  { rewrite Hnil. repeat split; intros; contradiction. }
  assert (Hq : filter isPageQuery
                 (trace (filterStage (readFilterConfig env)
                           (readEventContext (payloadIssue payload)) tt)) = [])
    by (apply filter_infos; [assumption | reflexivity]).
  assert (Hw : filter isWarning
                 (trace (filterStage (readFilterConfig env)
                           (readEventContext (payloadIssue payload)) tt)) = [])
    by (apply filter_infos; [assumption | reflexivity]).
  assert (Hinfo : forall e,
            In e (trace (filterStage (readFilterConfig env)
                           (readEventContext (payloadIssue payload)) tt)) ->
            isMutation e = false /\ isOutput e = false).
  { intros e Hin. pose proof (proj1 (Forall_forall _ _) Hlog _ Hin) as Hi.
    now destruct e. }
  split; [| split; [| split]].
  - destruct Hshape; rewrite ?filter_app, ?Hq; try reflexivity.
    now destruct reply.
  - destruct Hshape; rewrite ?filter_app, ?Hw; try reflexivity.
    now destruct reply.
  - intros ev Hin Hm.
    destruct Hshape; crack Hin;
      try (destruct (Hinfo ev Hin) as [Hno _]; congruence);
      subst ev; try discriminate Hm; now do 3 eexists.
  - intros name v Hin.
    destruct Hshape; crack Hin;
      try (destruct (Hinfo _ Hin) as [_ Hno]; discriminate Hno);
      try discriminate Hin.
    now injection Hin as <- _.
Qed.

(** X16. The add mutation is sent only when the filters decided ADD, or
    decided REMOVE for a payload without an issue. It carries the node id of
    the issue and the project id read from the lookup, and the run then made
    exactly two calls: the lookup and, right after it, the mutation. *)
Theorem add_follows_lookup fuel env payload s contentId projectId reply :
  let r := addToProject remote fuel env payload s in
  In (AddIssueToProject contentId projectId reply) (trace r) ->
  contentId = option_map Payload.node_id (payloadIssue payload)
  /\ (decide (readFilterConfig env) (readEventContext (payloadIssue payload)) = Value ADD
      \/ (decide (readFilterConfig env) (readEventContext (payloadIssue payload))
          = Value REMOVE
          /\ payloadIssue payload = None))
  /\ exists project idResp,
       resolveProject (trim (INPUT_PROJECT_URL env)) = Ok project
       /\ projectId = ProjectNodeIDResponse.projectId idResp (ownerTypeQuery project)
       /\ filter isCall (trace r)
          = [lookupOf project (Resolved idResp);
             AddIssueToProject contentId projectId reply].
Proof.
  cbv zeta. intros Hin.
  destruct (addToProject_cases remote fuel env payload s)
    as [[Hnil _] | [Hlog Hshape]].
  { rewrite Hnil in Hin. destruct Hin. }
  assert (Hc : filter isCall
                 (trace (filterStage (readFilterConfig env)
                           (readEventContext (payloadIssue payload)) tt)) = [])
    by (apply filter_infos; [assumption | reflexivity]).
  destruct Hshape as [Hd | e' Hd | d e' Hd Hgo Hres | d project message Hd Hgo Hres
                      | d project idResp reply' Hd Hgo Hres Hwhy
                      | project idResp i Hd Hres Hi Hfuel
                      | project idResp i Hd Hres Hi Hfuel].
  all: try (crack Hin; try (now not_in_log Hin Hlog); try discriminate Hin; fail).
  assert (Hsent : AddIssueToProject (option_map Payload.node_id (payloadIssue payload))
                    (ProjectNodeIDResponse.projectId idResp (ownerTypeQuery project)) reply'
                  = AddIssueToProject contentId projectId reply).
  { apply in_app_or in Hin. destruct Hin as [Hin | [Hin | [Hin | Hin]]].
    - now not_in_log Hin Hlog.
    - discriminate Hin.
    - exact Hin.
    - destruct reply'; cbn in Hin; [destruct Hin as [Hin | []]; discriminate Hin
                                   | destruct Hin]. }
  injection Hsent as <- <- <-. split; [reflexivity |]. split.
  - destruct Hwhy as [-> | Hnone]; [now left |].
    destruct d; [congruence | now left | right; now split].
  - exists project, idResp. split; [assumption |]. split; [reflexivity |].
    rewrite filter_app, Hc. now destruct reply'.
Qed.

End RunBranches.

(* ================================================================== *)
(** * Separators in the filter inputs *)
(* ================================================================== *)

Module SplitFacts.

Lemma split_pieces (sep : ascii) (s piece : string) :
  In piece (Js.split sep s) -> hasChar sep piece = false.
Proof.
  revert piece. induction s as [|c s IH]; intros piece Hin.
  - destruct Hin as [<- | []]. reflexivity.
  - cbn [Js.split] in Hin. destruct (Ascii.eqb c sep) eqn:Hc.
    + destruct Hin as [<- | Hin]; [reflexivity | now apply IH].
    + destruct (Js.split sep s) as [|p ps].
      * destruct Hin as [<- | []]. cbn. now rewrite Hc.
      * destruct Hin as [<- | Hin].
        -- cbn. rewrite Hc. apply IH. now left.
        -- apply IH. now right.
Qed.

Lemma trimStart_keeps (c : ascii) (s : string) :
  hasChar c (AsciiOps.trimStart s) = true -> hasChar c s = true.
Proof.
  induction s as [|a s IH]; [intros H; exact H |].
  cbn [AsciiOps.trimStart]. destruct (AsciiOps.isSpace a); [| intros H; exact H].
  intros H. cbn [hasChar]. rewrite (IH H). apply orb_true_r.
Qed.

Lemma trimEnd_keeps (c : ascii) (s : string) :
  hasChar c (AsciiOps.trimEnd s) = true -> hasChar c s = true.
Proof.
  induction s as [|a s IH]; [intros H; exact H |].
  cbn [AsciiOps.trimEnd hasChar].
  destruct (AsciiOps.trimEnd s) as [|b rest].
  - destruct (AsciiOps.isSpace a); [discriminate |].
    cbn [hasChar]. rewrite orb_false_r. intros ->. reflexivity.
  - cbn [hasChar] in *. intros H. apply orb_true_iff in H. destruct H as [-> | H].
    + reflexivity.
    + rewrite (IH H). apply orb_true_r.
Qed.

Lemma trim_keeps (c : ascii) (s : string) :
  hasChar c (trim (StringOps := AsciiOps.ops) s) = true -> hasChar c s = true.
Proof. intros H. now apply trimStart_keeps, trimEnd_keeps. Qed.

End SplitFacts.

Section Separators.

Context {ops : StringOps}.

(** X17. The milestone input is split at every comma, so when trimming
    brings in no comma no entry of the milestone filter holds one: a
    milestone whose title holds a comma cannot be matched exactly, whatever
    the input, and with a milestone filter in exact mode its issue is never
    added. *)
Theorem comma_title_never_matches env issue title :
  (forall s, hasChar "," (trim s) = true -> hasChar "," s = true) ->
  issueMilestone (readEventContext issue) = Some title ->
  hasChar "," title = true ->
  let cfg := readFilterConfig env in
  milestoneEnabled false (milestoned cfg) (Some title) = Ok false
  /\ (isTrue (fuzzyMatch cfg) = false -> milestoned cfg <> [] ->
      decide cfg (readEventContext issue) <> Value ADD).
Proof.
  intros Htrim Htitle Hcomma. cbv zeta.
  assert (Hno : milestoneEnabled false (milestoned (readFilterConfig env)) (Some title)
                = Ok false).
  { rewrite milestoneEnabled_title. f_equal. apply JsFacts.includes_false.
    cbn [readFilterConfig milestoned]. intros Hin.
    apply parseMilestoned_In in Hin. destruct Hin as [piece [Hpiece [-> _]]].
    apply Htrim in Hcomma.
    now rewrite (SplitFacts.split_pieces _ _ _ Hpiece) in Hcomma. }
  split; [exact Hno |].
  intros Hexact Hfilter. rewrite decide_rule, Hexact, Htitle, Hno.
  destruct (labelsPass _ _); [| discriminate].
  destruct (milestoned (readFilterConfig env)) as [|m ms]; [congruence |].
  cbn [List.length Nat.ltb Nat.leb].
  destruct (isTrue (removeUnmatched _)); discriminate.
Qed.

End Separators.

Lemma comma_title_never_matches_witness :
  let cfg := readFilterConfig (ops := AsciiOps.ops) (Sample.env "" "" "v1,0" "true" "") in
  milestoneEnabled false (milestoned cfg) (Some "v1,0") = Ok false
  /\ (isTrue (fuzzyMatch cfg) = false -> milestoned cfg <> [] ->
      decide cfg (readEventContext (ops := AsciiOps.ops) (Some MoreSamples.issue41))
      <> Value ADD).
Proof.
  apply (comma_title_never_matches (ops := AsciiOps.ops)
           (Sample.env "" "" "v1,0" "true" "") (Some MoreSamples.issue41) "v1,0").
  - intros s. apply SplitFacts.trim_keeps.
  - reflexivity.
  - reflexivity.
Defined.

(* ================================================================== *)
(** * The properties of whole runs, on sample runs *)
(* ================================================================== *)

Lemma skip_makes_no_call_witness :
  exists log,
    addToProject (ops := AsciiOps.ops) MoreSamples.refusing 5
      (MoreSamples.envAt "not a project" "v2" "") (Sample.payload Sample.issue12) 0
    = (log, 0, Returned)
    /\ log <> [] /\ Forall (fun e => isInfo e = true) log.
Proof.
  apply (skip_makes_no_call (ops := AsciiOps.ops) MoreSamples.refusing 5
           (MoreSamples.envAt "not a project" "v2" "") (Sample.payload Sample.issue12) 0).
  - discriminate.
  - discriminate.
  - vm_compute. discriminate.
  - reflexivity.
Defined.

Lemma url_checked_after_filters_witness :
  let env := MoreSamples.envAt " gitlab.com/orgs/acme/projects/7 " "" "" in
  let decision :=
    decide (readFilterConfig (ops := AsciiOps.ops) env)
      (readEventContext (ops := AsciiOps.ops) (payloadIssue (Sample.payload Sample.issue12))) in
  let r := addToProject (ops := AsciiOps.ops) MoreSamples.refusing 5 env
             (Sample.payload Sample.issue12) 0 in
  snd (fst r) = 0
  /\ Forall (fun e => isInfo e = true) (trace r)
  /\ (decision = Value SKIP -> outcome r = Returned)
  /\ (decision = Value ADD \/ decision = Value REMOVE ->
      outcome r
      = Thrown (InvalidProjectURL (trim (StringOps := AsciiOps.ops) (INPUT_PROJECT_URL env)))).
Proof.
  apply (url_checked_after_filters (ops := AsciiOps.ops) MoreSamples.refusing 5
           (MoreSamples.envAt " gitlab.com/orgs/acme/projects/7 " "" "")
           (Sample.payload Sample.issue12) 0
           (InvalidProjectURL "gitlab.com/orgs/acme/projects/7")).
  - discriminate.
  - discriminate.
  - vm_compute. discriminate.
  - reflexivity.
Defined.

Lemma run_errors_witness :
  let env := Sample.env "" "" "v2" "true" "" in
  let r := addToProject (ops := AsciiOps.ops)
             (Sample.server Sample.inOrganization (Some (Sample.items 30))) 5 env
             (Sample.payload Sample.issue12) 0 in
  let e := ReferenceError "ownerName" in
  (e = InputRequired "project-url" /\ INPUT_PROJECT_URL env = EmptyString)
  \/ (e = InputRequired "github-token" /\ INPUT_GITHUB_TOKEN env = EmptyString)
  \/ (e = AuthRequired
      /\ trim (StringOps := AsciiOps.ops) (INPUT_GITHUB_TOKEN env) = EmptyString)
  \/ (e = TypeError
      /\ decide (readFilterConfig (ops := AsciiOps.ops) env)
           (readEventContext (ops := AsciiOps.ops)
              (payloadIssue (Sample.payload Sample.issue12)))
         = Thrown TypeError)
  \/ e = InvalidProjectURL (trim (StringOps := AsciiOps.ops) (INPUT_PROJECT_URL env))
  \/ (exists m ev, e = RequestError m /\ In ev (trace r) /\ rejection ev = Some m)
  \/ (e = ReferenceError "ownerName"
      /\ decide (readFilterConfig (ops := AsciiOps.ops) env)
           (readEventContext (ops := AsciiOps.ops)
              (payloadIssue (Sample.payload Sample.issue12)))
         = Value REMOVE
      /\ payloadIssue (Sample.payload Sample.issue12) <> None).
Proof.
  apply (run_errors (ops := AsciiOps.ops)
           (Sample.server Sample.inOrganization (Some (Sample.items 30))) 5
           (Sample.env "" "" "v2" "true" "") (Sample.payload Sample.issue12) 0
           (ReferenceError "ownerName")).
  reflexivity.
Defined.

Lemma rejected_call_ends_the_run_witness :
  let r := addToProject (ops := AsciiOps.ops) MoreSamples.refusing 5
             (Sample.env "" "" "" "" "") (Sample.payload Sample.issue12) 0 in
  outcome r = Thrown (RequestError "Bad credentials")
  /\ exists t,
       trace r
       = t ++ [GetProject Organization (Some "acme") (Finite 7) (Rejected "Bad credentials")].
Proof.
  apply (rejected_call_ends_the_run (ops := AsciiOps.ops) MoreSamples.refusing 5
           (Sample.env "" "" "" "" "") (Sample.payload Sample.issue12) 0
           (GetProject Organization (Some "acme") (Finite 7) (Rejected "Bad credentials"))
           "Bad credentials").
  - vm_compute. left. reflexivity.
  - reflexivity.
Defined.

Lemma one_lookup_witness :
  let r := addToProject (ops := AsciiOps.ops)
             (Sample.server Sample.inUser (Some (Sample.items 3))) 5
             (Sample.userEnv "bug" "" "" "" "") (Sample.payload Sample.issue12) 0 in
  let lookup := GetProject User (Some "jane") (Finite 3) (Resolved Sample.inUser) in
  resolveProject (trim (StringOps := AsciiOps.ops)
                    (INPUT_PROJECT_URL (Sample.userEnv "bug" "" "" "" "")))
  = Ok {| projectOwnerName := Some "jane"; projectNumber := Finite 3;
          ownerTypeQuery := User |}
  /\ filter isLookup (trace r) = [lookup]
  /\ exists log rest,
       trace r = log ++ lookup :: rest /\ Forall (fun e => isInfo e = true) log.
Proof.
  apply (one_lookup (ops := AsciiOps.ops)
           (Sample.server Sample.inUser (Some (Sample.items 3))) 5
           (Sample.userEnv "bug" "" "" "" "") (Sample.payload Sample.issue12) 0
           User (Some "jane") (Finite 3) (Resolved Sample.inUser)).
  vm_compute. left. reflexivity.
Defined.

Lemma no_issue_never_removes_witness :
  let r := addToProject (ops := AsciiOps.ops)
             (Sample.server Sample.inOrganization (Some (Sample.items 3))) 5
             (Sample.env "" "" "v2" "true" "") MoreSamples.noIssue 0 in
  filter isPageQuery (trace r) = []
  /\ filter isWarning (trace r) = []
  /\ forall e, In e (trace r) -> isMutation e = true ->
       exists projectId reply, e = AddIssueToProject None projectId reply.
Proof.
  apply (no_issue_never_removes (ops := AsciiOps.ops)
           (Sample.server Sample.inOrganization (Some (Sample.items 3))) 5
           (Sample.env "" "" "v2" "true" "") MoreSamples.noIssue 0).
  - reflexivity.
  - reflexivity.
Defined.

Lemma add_follows_lookup_witness :
  let env := Sample.env "bug" "and" "" "" "" in
  let r := addToProject (ops := AsciiOps.ops)
             (Sample.server Sample.inOrganization None) 0 env
             (Sample.payload Sample.issue12) 0 in
  let reply := Resolved {| addProjectNextItem_projectNextItem_id := "PNI_new" |} in
  Some "I_12" = option_map Payload.node_id (payloadIssue (Sample.payload Sample.issue12))
  /\ (decide (readFilterConfig (ops := AsciiOps.ops) env)
        (readEventContext (ops := AsciiOps.ops)
           (payloadIssue (Sample.payload Sample.issue12)))
      = Value ADD
      \/ (decide (readFilterConfig (ops := AsciiOps.ops) env)
            (readEventContext (ops := AsciiOps.ops)
               (payloadIssue (Sample.payload Sample.issue12)))
          = Value REMOVE
          /\ payloadIssue (Sample.payload Sample.issue12) = None))
  /\ exists project idResp,
       resolveProject (trim (StringOps := AsciiOps.ops) (INPUT_PROJECT_URL env)) = Ok project
       /\ Some "PVT_7" = ProjectNodeIDResponse.projectId idResp (ownerTypeQuery project)
       /\ filter isCall (trace r)
          = [lookupOf project (Resolved idResp);
             AddIssueToProject (Some "I_12") (Some "PVT_7") reply].
Proof.
  apply (add_follows_lookup (ops := AsciiOps.ops)
           (Sample.server Sample.inOrganization None) 0
           (Sample.env "bug" "and" "" "" "") (Sample.payload Sample.issue12) 0
           (Some "I_12") (Some "PVT_7")
           (Resolved {| addProjectNextItem_projectNextItem_id := "PNI_new" |})).
  vm_compute. right. left. reflexivity.
Defined.
